(** * Request tracing middleware (pkg/middleware/request_tracing.go)

    A shallow embedding of the Go middleware that wraps an inbound HTTP
    request in a trace span, together with the route operation name that
    downstream handlers thread through the request context.

    The Go code works on three shared, mutable objects: the macaron
    context [c] (whose field [c.Req] downstream handlers replace), the
    response writer [rw] (whose status downstream handlers set) and the
    span handed out by the tracer.  They live in an explicit [World] that
    every handler transforms; a handler either returns or panics. *)

From Stdlib Require Import ZArith String DecimalString.
From stdpp Require Import base option list gmap strings.

Local Open Scope Z_scope.

(** ** Go's [context] package *)

Module context.

(** Context keys are compared with [==] on interface values, so a key of
    the unexported type [contextKey] equals no key of another package. *)
Inductive key : Type :=
| routeOperationNameKey            (* contextKey{} of package middleware *)
| currentSpanKey                   (* the key the tracing library uses *)
| otherKey (n : nat).              (* keys of unrelated packages *)

(** Values of static type [any] that a request context can carry. *)
Inductive any : Type :=
| AnyNil
| AnyString (s : string)
| AnySpan (span : nat)
| AnyOther (n : nat).

Inductive Context : Type :=
| Background
| WithValue (parent : Context) (k : key) (val : any).

Definition key_eqb (a b : key) : bool :=
  match a, b with
  | routeOperationNameKey, routeOperationNameKey => true
  | currentSpanKey, currentSpanKey => true
  | otherKey n, otherKey m => Nat.eqb n m
  | _, _ => false
  end.

(** [ctx.Value(k)]: the innermost binding of [k], [nil] when there is none. *)
Fixpoint Value (ctx : Context) (k : key) : any :=
  match ctx with
  | Background => AnyNil
  | WithValue parent k' val => if key_eqb k' k then val else Value parent k
  end.

(** The number of bindings of [k] on the chain of [ctx]. *)
Fixpoint bindings (k : key) (ctx : Context) : nat :=
  match ctx with
  | Background => O
  | WithValue parent k' _ =>
      ((if key_eqb k' k then 1 else 0) + bindings k parent)%nat
  end.

End context.

(** ** The parts of [net/http], [strings], [strconv] and [fmt] that are used *)

Module http.

Record URL : Type := { Path : string }.

(** [http.Header] is a [map[string][]string]. *)
Definition Header : Type := gmap string (list string).

Record Request : Type := {
  Method : string;
  Url : URL;                       (* the field [URL] *)
  RequestURI : string;
  Headers : Header;                (* the field [Header] *)
  Ctx : context.Context            (* what [req.Context()] returns *)
}.

(** [req.WithContext(ctx)]: a shallow copy of [req] with its context replaced. *)
Definition WithContext (req : Request) (ctx : context.Context) : Request :=
  {| Method := Method req; Url := Url req; RequestURI := RequestURI req;
     Headers := Headers req; Ctx := ctx |}.

End http.

Module strings.
(** [strings.HasPrefix(s, prefix)] *)
Definition HasPrefix (s prefix : string) : bool := String.prefix prefix s.
End strings.

Module strconv.
(** [strconv.Itoa(i)]: decimal digits, with a leading minus sign below zero. *)
Definition Itoa (i : Z) : string := NilZero.string_of_int (Z.to_int i).
End strconv.

Module fmt.
(** [fmt.Sprintf("HTTP %s %s", a, b)] *)
Definition Sprintf_HTTP (a b : string) : string := "HTTP " +:+ a +:+ " " +:+ b.
(** [fmt.Sprintf("error with HTTP status code %s", a)] *)
Definition Sprintf_error (a : string) : string :=
  "error with HTTP status code " +:+ a.
End fmt.

(** ** The tracing API: attributes, status codes, spans and the tracer *)

Module attribute.

Inductive Value : Type :=
| INT64 (v : Z)
| STRING (s : string).

Record KeyValue : Type := { Key : string; Val : Value }.

Definition Int (k : string) (v : Z) : KeyValue := {| Key := k; Val := INT64 v |}.
Definition String (k : string) (v : string) : KeyValue :=
  {| Key := k; Val := STRING v |}.

End attribute.

Module codes.
Inductive Code : Type := Unset | Error | Ok.
End codes.

Module trace.

(** A link to the span context that a context carries. *)
Record Link : Type := { SpanContext : context.Context }.

(** [trace.LinkFromContext(ctx)] *)
Definition LinkFromContext (ctx : context.Context) : Link := {| SpanContext := ctx |}.

(** A recording span of the tracing library: its name, attributes (a later
    value for a key replaces the earlier one), status with description,
    links, and whether [End] has been called. *)
Record Span : Type := {
  Name : string;
  Attributes : gmap string attribute.Value;
  Status : codes.Code * string;
  Links : list Link;
  Ended : bool
}.

(** The calls made on the tracing API, in the order they are made. *)
Inductive Call : Type :=
| Start (span : nat) (name : string) (links : list Link)
| SetName (span : nat) (name : string)
| SetAttributes (span : nat) (kv : attribute.KeyValue)
| SetStatus (span : nat) (code : codes.Code) (description : string)
| End_ (span : nat).

(** The tracer backend: every span it has handed out, by handle, and the
    log of calls it has received. *)
Record Tracer : Type := { spans : list Span; calls : list Call }.

Definition newSpan (name : string) (links : list Link) : Span :=
  {| Name := name; Attributes := ∅; Status := (codes.Unset, "");
     Links := links; Ended := false |}.

(** A span that has ended no longer records. *)
Definition recording (f : Span → Span) (s : Span) : Span :=
  if Ended s then s else f s.

Definition setName (name : string) (s : Span) : Span :=
  {| Name := name; Attributes := Attributes s; Status := Status s;
     Links := Links s; Ended := Ended s |}.

Definition setAttributes (kv : attribute.KeyValue) (s : Span) : Span :=
  {| Name := Name s;
     Attributes := <[attribute.Key kv := attribute.Val kv]> (Attributes s);
     Status := Status s; Links := Links s; Ended := Ended s |}.

Definition setStatus (code : codes.Code) (description : string) (s : Span) : Span :=
  {| Name := Name s; Attributes := Attributes s; Status := (code, description);
     Links := Links s; Ended := Ended s |}.

Definition end_ (s : Span) : Span :=
  {| Name := Name s; Attributes := Attributes s; Status := Status s;
     Links := Links s; Ended := true |}.

(** The effect of one call on the backend. *)
Definition update (span : nat) (f : Span → Span) (t : Tracer) : list Span :=
  match spans t !! span with
  | Some s => <[span := recording f s]> (spans t)
  | None => spans t
  end.

Definition receive (call : Call) (t : Tracer) : Tracer :=
  {| spans :=
       match call with
       | Start _ name links => spans t ++ [newSpan name links]
       | SetName span name => update span (setName name) t
       | SetAttributes span kv => update span (setAttributes kv) t
       | SetStatus span code d => update span (setStatus code d) t
       | End_ span => update span end_ t
       end;
     calls := calls t ++ [call] |}.

Definition isStart (c : Call) : bool :=
  match c with Start _ _ _ => true | _ => false end.
Definition isEnd (c : Call) : bool :=
  match c with End_ _ => true | _ => false end.
Definition isSetAttributes (c : Call) : bool :=
  match c with SetAttributes _ _ => true | _ => false end.
Definition isSetStatus (c : Call) : bool :=
  match c with SetStatus _ _ _ => true | _ => false end.

(** The span a call is made on. *)
Definition target (c : Call) : nat :=
  match c with
  | Start span _ _ | SetName span _ | SetAttributes span _
  | SetStatus span _ _ | End_ span => span
  end.

(** What a call other than [Start] does to the span it is made on. *)
Definition onSpan (c : Call) (s : Span) : Span :=
  match c with
  | Start _ _ _ => s
  | SetName _ name => recording (setName name) s
  | SetAttributes _ kv => recording (setAttributes kv) s
  | SetStatus _ code d => recording (setStatus code d) s
  | End_ _ => recording end_ s
  end.

(** How many spans a sequence of calls starts, and how many it ends. *)
Definition started (l : list Call) : nat := length (filter (λ c, isStart c = true) l).
Definition ended (l : list Call) : nat := length (filter (λ c, isEnd c = true) l).

End trace.

(** ** The macaron request context *)

Module macaron.

(** The response writer exposes the status written so far ([rw.Status()]). *)
Record ResponseWriter : Type := { Status : Z }.

(** The fields of [*macaron.Context] that the middleware touches: [c.Req],
    the response writer [c.Resp] (injected into handlers as [res]), and the
    [*http.Request] currently mapped in the injector (injected as [req]). *)
Record Context : Type := {
  Req : http.Request;
  Resp : ResponseWriter;
  Mapped : http.Request
}.

End macaron.

(** ** Handlers: state passing with panics and deferred calls *)

Inductive Res (A : Type) : Type :=
| Returned (a : A)
| Panicked (v : context.any).
Arguments Returned {A} a.
Arguments Panicked {A} v.

(** [defers] holds the deferred calls of the running function, the most
    recently deferred first. *)
Record World : Type := {
  c : macaron.Context;
  tracer : trace.Tracer;
  defers : list trace.Call
}.

Definition M (A : Type) : Type := World → Res A * World.

#[export] Instance M_ret : MRet M := λ A a w, (Returned a, w).

#[export] Instance M_bind : MBind M := λ A B f m w,
  match m w with
  | (Returned a, w') => f a w'
  | (Panicked v, w') => (Panicked v, w')
  end.

Definition get_c : M macaron.Context := λ w, (Returned (c w), w).

Definition set_c (c' : macaron.Context) : M unit := λ w,
  (Returned tt, {| c := c'; tracer := tracer w; defers := defers w |}).

(** One call on the tracing API. *)
Definition call (x : trace.Call) : M unit := λ w,
  (Returned tt,
   {| c := c w; tracer := trace.receive x (tracer w); defers := defers w |}).

(** [defer x]: register [x] to run when the enclosing function is left. *)
Definition defer (x : trace.Call) : M unit := λ w,
  (Returned tt, {| c := c w; tracer := tracer w; defers := x :: defers w |}).

(** A function body: it starts with no deferred call, and the calls it has
    deferred run, last deferred first, when it returns or panics. *)
Definition func {A : Type} (body : M A) : M A := λ w,
  let (r, w') := body {| c := c w; tracer := tracer w; defers := [] |} in
  (r, {| c := c w';
         tracer := foldl (λ t x, trace.receive x t) (tracer w') (defers w');
         defers := defers w |}).

(** [tracing.Tracer.Start(ctx, name, trace.WithLinks(links...))]: a new span,
    and a context derived from [ctx] that carries it. *)
Definition Tracer_Start (ctx : context.Context) (name : string)
    (links : list trace.Link) : M (context.Context * nat) := λ w,
  let span := length (trace.spans (tracer w)) in
  (Returned (context.WithValue ctx context.currentSpanKey (context.AnySpan span), span),
   {| c := c w; tracer := trace.receive (trace.Start span name links) (tracer w);
      defers := defers w |}).

(** A macaron handler with the arguments [res], [req] and [c]: [req] is the
    mapped request, [res] and [c] are read from the world. *)
Definition Handler : Type := http.Request → M unit.

(** Invoking a handler injects the request mapped at that moment. *)
Definition Invoke (h : Handler) : M unit :=
  c ← get_c; h (macaron.Mapped c).

(** ** pkg/middleware *)

Module middleware.

(** [c.Req = r] *)
Definition set_Req (r : http.Request) : M unit :=
  c ← get_c;
  set_c {| macaron.Req := r; macaron.Resp := macaron.Resp c;
           macaron.Mapped := macaron.Mapped c |}.

(** [c.Map(c.Req)] *)
Definition Map_Req : M unit :=
  c ← get_c;
  set_c {| macaron.Req := macaron.Req c; macaron.Resp := macaron.Resp c;
           macaron.Mapped := macaron.Req c |}.

Definition ProvideRouteOperationName (name : string) : Handler := λ req,
  func (
    c ← get_c;
    let ctx := context.WithValue (http.Ctx (macaron.Req c))
                 context.routeOperationNameKey (context.AnyString name) in
    set_Req (http.WithContext (macaron.Req c) ctx)).

Definition RouteOperationNameFromContext (ctx : context.Context) : string * bool :=
  match context.Value ctx context.routeOperationNameKey with
  | context.AnyNil => ("", false)
  | context.AnyString op => (op, true)      (* val.(string) succeeds *)
  | _ => ("", false)                        (* val.(string) fails: zero value *)
  end.

(** The test that guards the early return of [RequestTracing]. *)
Definition bypassed (c : macaron.Context) : bool :=
  strings.HasPrefix (http.Path (http.Url (macaron.Req c))) "/public/"
  || String.eqb (http.Path (http.Url (macaron.Req c))) "robots.txt".

Section RequestTracing.

(** [otel.GetTextMapPropagator().Extract], a pluggable global. *)
Variable Extract : context.Context → http.Header → context.Context.

(** The rest of the handler chain, as [c.Next()] runs it: it may replace
    [c.Req], remap the request, write the response status, and return or
    panic.  These are the objects [RequestTracing] reads once the chain is
    back; the calls logged by the tracer are therefore the calls of the
    middleware itself. *)
Variable Next : macaron.Context → Res unit * macaron.Context.

Definition c_Next : M unit := λ w,
  let (r, c') := Next (c w) in
  (r, {| c := c'; tracer := tracer w; defers := defers w |}).

Definition RequestTracing : Handler := λ req,
  func (
    c ← get_c;
    if bypassed c then
      c_Next
    else
      (* rw := res.(macaron.ResponseWriter): the writer is c.Resp *)
      let wireContext := Extract (http.Ctx req) (http.Headers req) in
      '(ctx, span) ← Tracer_Start (http.Ctx req)
                       (fmt.Sprintf_HTTP (http.Method req) (http.Path (http.Url req)))
                       [trace.LinkFromContext wireContext];
      set_Req (http.WithContext req ctx);;
      Map_Req;;
      c_Next;;
      c ← get_c;
      (let '(routeOperation, exists_) :=
         RouteOperationNameFromContext (http.Ctx (macaron.Req c)) in
       if exists_ then
         defer (trace.End_ span);;
         call (trace.SetName span (fmt.Sprintf_HTTP (http.Method req) routeOperation))
       else mret tt);;
      c ← get_c;
      let status := macaron.Status (macaron.Resp c) in
      call (trace.SetAttributes span (attribute.Int "HTTP response status code" status));;
      call (trace.SetAttributes span (attribute.String "HTTP request URI" (http.RequestURI req)));;
      call (trace.SetAttributes span (attribute.String "HTTP request method" (http.Method req)));;
      if 400 <=? status then
        call (trace.SetStatus span codes.Error
                (fmt.Sprintf_error (strconv.Itoa status)))
      else mret tt).

End RequestTracing.

End middleware.

(** ** What a run of the middleware leaves behind *)

(** The calls the tracing API received between world [w] and world [w']. *)
Definition made (w w' : World) : list trace.Call :=
  drop (length (trace.calls (tracer w))) (trace.calls (tracer w')).

(** The handle of the span the tracer hands out next in [w], and that span
    as it stands in [w']. *)
Definition nextSpan (w : World) : nat := length (trace.spans (tracer w)).

Definition spanOf (w w' : World) : option trace.Span :=
  trace.spans (tracer w') !! nextSpan w.

(** The macaron context that [RequestTracing] hands to the rest of the
    chain for a request it traces: [c.Req] and the mapped request are [req]
    with the span-bearing context. *)
Definition traced (req : http.Request) (w : World) : macaron.Context :=
  let r := http.WithContext req
             (context.WithValue (http.Ctx req) context.currentSpanKey
                (context.AnySpan (nextSpan w))) in
  {| macaron.Req := r; macaron.Resp := macaron.Resp (c w); macaron.Mapped := r |}.

(** The calls [RequestTracing] makes on span [span] once the chain has
    returned with macaron context [c'], the deferred call last. *)
Definition postProcessing (req : http.Request) (span : nat) (c' : macaron.Context)
    : list trace.Call :=
  let '(routeOperation, exists_) :=
    middleware.RouteOperationNameFromContext (http.Ctx (macaron.Req c')) in
  let status := macaron.Status (macaron.Resp c') in
  (if exists_ then
     [trace.SetName span (fmt.Sprintf_HTTP (http.Method req) routeOperation)]
   else [])
  ++ [trace.SetAttributes span (attribute.Int "HTTP response status code" status);
      trace.SetAttributes span (attribute.String "HTTP request URI" (http.RequestURI req));
      trace.SetAttributes span (attribute.String "HTTP request method" (http.Method req))]
  ++ (if 400 <=? status then
        [trace.SetStatus span codes.Error (fmt.Sprintf_error (strconv.Itoa status))]
      else [])
  ++ (if exists_ then [trace.End_ span] else []).

(** ** Sample requests and handler chains *)

Module sample.

Definition req : http.Request :=
  {| http.Method := "GET";
     http.Url := {| http.Path := "/api/org/preferences/" |};
     http.RequestURI := "/api/org/preferences/?theme=dark";
     http.Headers := {[ "traceparent" := ["00-0af7651916cd43dd8448eb211c80319c-b7ad6b7169203331-01"] ]};
     http.Ctx := context.WithValue context.Background (context.otherKey 7) (context.AnyOther 1) |}.

Definition static : http.Request :=
  {| http.Method := "GET";
     http.Url := {| http.Path := "/public/img/grafana_icon.svg" |};
     http.RequestURI := "/public/img/grafana_icon.svg";
     http.Headers := ∅;
     http.Ctx := context.Background |}.

(** The world in which a fresh request [r] reaches the handler chain. *)
Definition world (r : http.Request) : World :=
  {| c := {| macaron.Req := r; macaron.Resp := {| macaron.Status := 0 |};
             macaron.Mapped := r |};
     tracer := {| trace.spans := []; trace.calls := [] |};
     defers := [] |}.

(** A propagator that decodes a [traceparent] header when there is one. *)
Definition Extract (ctx : context.Context) (h : http.Header) : context.Context :=
  match h !! "traceparent" with
  | Some _ => context.WithValue ctx context.currentSpanKey (context.AnyOther 0)
  | None => ctx
  end.

(** [rw.WriteHeader(status)] *)
Definition WriteHeader (status : Z) : M unit :=
  c ← get_c;
  set_c {| macaron.Req := macaron.Req c;
           macaron.Resp := {| macaron.Status := status |};
           macaron.Mapped := macaron.Mapped c |}.

(** A chain of handlers run as the rest of the chain of a macaron context. *)
Definition chain (h : M unit) (c0 : macaron.Context) : Res unit * macaron.Context :=
  let (r, w) := h {| c := c0; tracer := {| trace.spans := []; trace.calls := [] |};
                     defers := [] |} in
  (r, c w).

(** A router that names the route, then a handler that answers. *)
Definition named (name : string) (status : Z) : macaron.Context → Res unit * macaron.Context :=
  chain (Invoke (middleware.ProvideRouteOperationName name);; WriteHeader status).

(** A handler that answers on a route without a name. *)
Definition unnamed (status : Z) : macaron.Context → Res unit * macaron.Context :=
  chain (WriteHeader status).

(** A handler that panics after naming the route. *)
Definition panicking (name : string) : macaron.Context → Res unit * macaron.Context :=
  chain (Invoke (middleware.ProvideRouteOperationName name);;
         (λ w, (Panicked (context.AnyString "boom"), w)) : M unit).

End sample.

(** The [Start] call [RequestTracing] makes for a request it traces; the
    propagator [Extract] decodes the upstream context for the link. *)
Definition startCall (Extract : context.Context → http.Header → context.Context)
    (req : http.Request) (w : World) : trace.Call :=
  trace.Start (nextSpan w)
    (fmt.Sprintf_HTTP (http.Method req) (http.Path (http.Url req)))
    [trace.LinkFromContext (Extract (http.Ctx req) (http.Headers req))].

(** ** Derived contexts and simple chains *)

(** The context reached from [ctx] by deriving under each key of [kvs] in
    turn, as successive middleware do with [context.WithValue]. *)
Definition derive (ctx : context.Context) (kvs : list (context.key * context.any))
    : context.Context :=
  foldl (λ c kv, context.WithValue c kv.1 kv.2) ctx kvs.

(** The request a crawler sends for the robots file: the path that the
    server hands to the handlers starts with a slash. *)
Definition robotsRequest : http.Request :=
  {| http.Method := "GET";
     http.Url := {| http.Path := "/robots.txt" |};
     http.RequestURI := "/robots.txt";
     http.Headers := ∅;
     http.Ctx := context.Background |}.

(** The rest of a chain that returns at once and leaves [c] as it got it. *)
Definition returning (c0 : macaron.Context) : Res unit * macaron.Context :=
  (Returned tt, c0).

(** ** The Azure Monitor datasource (azure_monitor_datasource.ts)

    The methods of [AzureMonitorDatasource] that validate the configuration
    and list subscriptions, metric definitions and resource names.  A method
    that queries the backend yields the requests it issues, in order, and the
    settled promise. *)

Module azure.

(** A dropdown entry [{ text, value }]. *)
Record Entry : Type := { text : string; value : string }.

(** [DatasourceValidationResult], as [validateDatasource] builds it. *)
Record DatasourceValidationResult : Type := { status : string; message : string }.

(** The fields of [instanceSettings.jsonData] that are read; an absent
    field is [undefined]. *)
Record AzureDataSourceJsonData : Type := {
  tenantId : option string;
  clientId : option string;
  subscriptionId : option string
}.

(** The datasource object: its settings and the fields the constructor
    sets.  [authType] is what [getAuthType(instanceSettings)] returns. *)
Record AzureMonitorDatasource : Type := {
  jsonData : AzureDataSourceJsonData;
  authType : string;
  defaultSubscriptionId : option string;
  resourcePath : string;
  supportedMetricNamespaces : list string
}.

Definition apiVersion : string := "2018-01-01".

(** The constructor; [azureMonitor] is [routeNames.azureMonitor] and
    [supported] is [new SupportedNamespaces(cloud).get()]. *)
Definition constructor (settings : AzureDataSourceJsonData) (auth azureMonitor : string)
    (supported : list string) : AzureMonitorDatasource :=
  {| jsonData := settings;
     authType := auth;
     defaultSubscriptionId := subscriptionId settings;
     resourcePath := azureMonitor +:+ "/subscriptions";
     supportedMetricNamespaces := supported |}.

(** [typeof field === 'string' && field.length > 0] *)
Definition isValidConfigField (field : option string) : bool :=
  match field with
  | Some s => (0 <? String.length s)%nat
  | None => false
  end.

Definition validateDatasource (this : AzureMonitorDatasource)
    : option DatasourceValidationResult :=
  if String.eqb (authType this) "clientsecret" then
    if negb (isValidConfigField (tenantId (jsonData this))) then
      Some {| status := "error"; message := "The Tenant Id field is required." |}
    else if negb (isValidConfigField (clientId (jsonData this))) then
      Some {| status := "error"; message := "The Client Id field is required." |}
    else None
  else None.

(** [!this.validateDatasource()]: an object is truthy, [undefined] is not. *)
Definition isConfigured (this : AzureMonitorDatasource) : bool :=
  match validateDatasource this with
  | Some _ => false
  | None => true
  end.

(** A settled promise: fulfilled with a value, or rejected with a reason. *)
Inductive Promise (Err A : Type) : Type :=
| Fulfilled (a : A)
| Rejected (e : Err).
Arguments Fulfilled {Err A} a.
Arguments Rejected {Err A} e.

(** An asynchronous method: the URLs requested, in order, and the promise. *)
Definition Async (Err A : Type) : Type := list string * Promise Err A.

Definition resolve {Err A : Type} (a : A) : Async Err A := ([], Fulfilled a).

(** [p.then(f)], for a callback [f] that returns a value or throws. *)
Definition then_ {Err A B : Type} (p : Async Err A) (f : A → Promise Err B)
    : Async Err B :=
  match p with
  | (urls, Fulfilled a) => (urls, f a)
  | (urls, Rejected e) => (urls, Rejected e)
  end.

(** The four storage services added next to a storage account. *)
Definition storageServices : list Entry :=
  [ {| text := "Microsoft.Storage/storageAccounts/blobServices";
       value := "Microsoft.Storage/storageAccounts/blobServices" |};
    {| text := "Microsoft.Storage/storageAccounts/fileServices";
       value := "Microsoft.Storage/storageAccounts/fileServices" |};
    {| text := "Microsoft.Storage/storageAccounts/tableServices";
       value := "Microsoft.Storage/storageAccounts/tableServices" |};
    {| text := "Microsoft.Storage/storageAccounts/queueServices";
       value := "Microsoft.Storage/storageAccounts/queueServices" |} ].

(** The names every plain object inherits from [Object.prototype]; each
    reads as a function, or as the prototype object for "__proto__". *)
Definition objectPrototype : list string :=
  [ "constructor"; "hasOwnProperty"; "isPrototypeOf"; "propertyIsEnumerable";
    "toLocaleString"; "toString"; "valueOf"; "__proto__";
    "__defineGetter__"; "__defineSetter__"; "__lookupGetter__"; "__lookupSetter__" ].

(** What [table[key]] reads on a plain object whose own properties are the
    strings of [table]: the own string, else the inherited member of that
    name, else [undefined]. *)
Inductive Property : Type :=
| Undefined
| Own (s : string)
| Inherited (name : string).

Definition get (table : gmap string string) (key : string) : Property :=
  match table !! key with
  | Some s => Own s
  | None => if existsb (String.eqb key) objectPrototype then Inherited key else Undefined
  end.

(** The [text] that [getMetricDefinitions] gives an entry: a string, or an
    inherited member of the table, which is not a string. *)
Inductive Label : Type :=
| Text (s : string)
| Member (name : string).

(** [a || b]: [b] when [a] is [undefined] or the empty string, else [a]. *)
Definition orElse (a : Property) (b : string) : Label :=
  match a with
  | Undefined => Text b
  | Own s => if String.eqb s "" then Text b else Text s
  | Inherited name => Member name
  end.

(** The entries [{ value, text }] that [getMetricDefinitions] returns. *)
Module shown.
Record Entry : Type := { value : string; text : Label }.
End shown.

Section Backend.

(** Response bodies ([any]) and rejection reasons. *)
Variables Json Err : Type.

(** [this.getResource(url)] of [DataSourceWithBackend], as the backend
    answers it. *)
Variable backend : string → Promise Err Json.

(** The functions of [ResponseParser]; each returns its list or throws. *)
Variable parseSubscriptions : Json → Promise Err (list Entry).
Variable parseResponseValues : Json → string → string → Promise Err (list Entry).
Variable parseResourceNames : Json → string → Promise Err (list Entry).

(** [String.prototype.toLowerCase] and the own properties of the object
    [resourceTypeDisplayNames]. *)
Variable toLowerCase : string → string.
Variable resourceTypeDisplayNames : gmap string string.

Definition getResource (url : string) : Async Err Json := ([url], backend url).

Definition getSubscriptions (this : AzureMonitorDatasource) : Async Err (list Entry) :=
  if negb (isConfigured this) then resolve []
  else
    then_ (getResource (resourcePath this +:+ "?api-version=2019-03-01"))
          (λ result, parseSubscriptions result).

Definition getResourceGroups (this : AzureMonitorDatasource) (subscriptionId : string)
    : Async Err (list Entry) :=
  then_ (getResource (resourcePath this +:+ "/" +:+ subscriptionId
                      +:+ "/resourceGroups?api-version=" +:+ apiVersion))
        (λ result, parseResponseValues result "name" "name").

(** The callback of [filter]: the loop over [supportedMetricNamespaces]. *)
Fixpoint isSupported (supported : list string) (t : Entry) : bool :=
  match supported with
  | [] => false
  | ns :: rest =>
      if String.eqb (toLowerCase (value t)) (toLowerCase ns) then true
      else isSupported rest t
  end.

(** The loop that looks for a storage account, leaving at the first one. *)
Fixpoint shouldHardcodeBlobStorage (result : list Entry) : bool :=
  match result with
  | [] => false
  | t :: rest =>
      if String.eqb (value t) "Microsoft.Storage/storageAccounts" then true
      else shouldHardcodeBlobStorage rest
  end.

Definition getMetricDefinitions (this : AzureMonitorDatasource)
    (subscriptionId resourceGroup : string) : Async Err (list shown.Entry) :=
  let p0 :=
    getResource (resourcePath this +:+ "/" +:+ subscriptionId +:+ "/resourceGroups/"
                 +:+ resourceGroup +:+ "/resources?api-version=" +:+ apiVersion) in
  let p1 := then_ p0 (λ result, parseResponseValues result "type" "type") in
  let p2 := then_ p1 (λ result,
    Fulfilled (List.filter (isSupported (supportedMetricNamespaces this)) result)) in
  then_ p2 (λ result,
    let result :=
      if shouldHardcodeBlobStorage result then result ++ storageServices else result in
    Fulfilled
      (map (λ v, {| shown.value := value v;
                    shown.text := orElse (get resourceTypeDisplayNames (toLowerCase (value v)))
                                         (value v) |})
           result)).

Definition getResourceNames (this : AzureMonitorDatasource)
    (subscriptionId resourceGroup metricDefinition : string) : Async Err (list Entry) :=
  then_ (getResource (resourcePath this +:+ "/" +:+ subscriptionId +:+ "/resourceGroups/"
                      +:+ resourceGroup +:+ "/resources?api-version=" +:+ apiVersion))
        (λ result,
           if negb (String.prefix "Microsoft.Storage/storageAccounts/" metricDefinition)
           then parseResourceNames result metricDefinition
           else
             match parseResourceNames result "Microsoft.Storage/storageAccounts" with
             | Fulfilled list =>
                 Fulfilled (map (λ e, {| text := text e +:+ "/default";
                                         value := value e +:+ "/default" |}) list)
             | Rejected e => Rejected e
             end).

End Backend.

Arguments getResource {Json Err} backend url.
Arguments getSubscriptions {Json Err} backend parseSubscriptions this.
Arguments getResourceGroups {Json Err} backend parseResponseValues this subscriptionId.
Arguments getMetricDefinitions {Json Err} backend parseResponseValues toLowerCase
  resourceTypeDisplayNames this subscriptionId resourceGroup.
Arguments getResourceNames {Json Err} backend parseResourceNames this
  subscriptionId resourceGroup metricDefinition.

End azure.

(** Sample settings, backend and parsers for the datasource. *)

Module azure_sample.

Definition secret : azure.AzureMonitorDatasource :=
  azure.constructor
    {| azure.tenantId := Some ""; azure.clientId := Some "app";
       azure.subscriptionId := Some "sub-1" |}
    "clientsecret" "azuremonitor"
    ["Microsoft.Compute/virtualMachines"; "Microsoft.Storage/storageAccounts"].

Definition managed : azure.AzureMonitorDatasource :=
  azure.constructor
    {| azure.tenantId := None; azure.clientId := None;
       azure.subscriptionId := Some "sub-1" |}
    "msi" "azuremonitor"
    ["Microsoft.Compute/virtualMachines"; "Microsoft.Storage/storageAccounts"].

Definition resources : string :=
  "azuremonitor/subscriptions/sub-1/resourceGroups/rg/resources?api-version=2018-01-01".

(** A backend that answers every request with the body "ok". *)
Definition backend (url : string) : azure.Promise string string := azure.Fulfilled "ok".

(** A backend that is down. *)
Definition down (url : string) : azure.Promise string string := azure.Rejected "502".

Definition parseResponseValues (json textField valueField : string)
    : azure.Promise string (list azure.Entry) :=
  azure.Fulfilled
    [ {| azure.text := "Microsoft.Storage/storageAccounts";
         azure.value := "Microsoft.Storage/storageAccounts" |};
      {| azure.text := "Microsoft.Sql/servers"; azure.value := "Microsoft.Sql/servers" |} ].

Definition parseResourceNames (json metricDefinition : string)
    : azure.Promise string (list azure.Entry) :=
  azure.Fulfilled [ {| azure.text := "acct"; azure.value := "acct" |} ].

(** Lower case on the letters A to Z, other bytes unchanged. *)
Definition lowerAscii (a : Ascii.ascii) : Ascii.ascii :=
  let n := Ascii.nat_of_ascii a in
  if ((65 <=? n) && (n <=? 90))%nat then Ascii.ascii_of_nat (n + 32) else a.

Fixpoint toLowerCase (s : string) : string :=
  match s with
  | EmptyString => EmptyString
  | String a rest => String (lowerAscii a) (toLowerCase rest)
  end.

Definition displayNames : gmap string string :=
  {[ "microsoft.storage/storageaccounts" := "Storage accounts" ]}.

End azure_sample.

(** * Properties *)

(** ** Contexts *)

Lemma key_eqb_eq (a b : context.key) : context.key_eqb a b = true ↔ a = b.
Proof.
  destruct a, b; simpl; try (split; [discriminate | congruence]); try done.
  rewrite Nat.eqb_eq. split; congruence.
Qed.

Lemma key_eqb_ne (a b : context.key) : a ≠ b → context.key_eqb a b = false.
Proof.
  intros Hne. destruct (context.key_eqb a b) eqn:E; [|done].
  by apply key_eqb_eq in E.
Qed.

Lemma Value_unbound (ctx : context.Context) (k : context.key) :
  context.bindings k ctx = O → context.Value ctx k = context.AnyNil.
Proof.
  induction ctx as [|parent IH k' val]; simpl; [done|].
  destruct (context.key_eqb k' k); simpl; [discriminate | exact IH].
Qed.

Lemma RouteOperationNameFromContext_unbound (ctx : context.Context) :
  context.bindings context.routeOperationNameKey ctx = O →
  middleware.RouteOperationNameFromContext ctx = ("", false).
Proof.
  intros Hnone. unfold middleware.RouteOperationNameFromContext.
  by rewrite (Value_unbound ctx _ Hnone).
Qed.

Lemma Value_derived_ne (ctx : context.Context) (k k' : context.key) (val : context.any) :
  k' ≠ k → context.Value (context.WithValue ctx k' val) k = context.Value ctx k.
Proof. intros Hne. simpl. by rewrite key_eqb_ne. Qed.

Lemma HasPrefix_app (p rest : string) : strings.HasPrefix (p +:+ rest) p = true.
Proof.
  unfold strings.HasPrefix. induction p as [|a p IH]; simpl.
  - by destruct rest.
  - destruct (Ascii.ascii_dec a a); [exact IH | done].
Qed.

(** ** The tracer backend *)

Lemma calls_foldl (l : list trace.Call) (t : trace.Tracer) :
  trace.calls (foldl (λ t x, trace.receive x t) t l) = trace.calls t ++ l.
Proof.
  revert t. induction l as [|x l IH]; intros t; simpl.
  - by rewrite app_nil_r.
  - rewrite IH. simpl. by rewrite <- app_assoc.
Qed.

Lemma update_last (sp0 : list trace.Span) (s : trace.Span) (f : trace.Span → trace.Span)
    (t : trace.Tracer) :
  trace.spans t = sp0 ++ [s] →
  trace.update (length sp0) f t = sp0 ++ [trace.recording f s].
Proof.
  intros Hsp. unfold trace.update. rewrite Hsp.
  rewrite list_lookup_middle by done.
  rewrite insert_app_r_alt by lia.
  by rewrite Nat.sub_diag.
Qed.

Lemma receive_last (sp0 : list trace.Span) (s : trace.Span) (x : trace.Call)
    (t : trace.Tracer) :
  trace.spans t = sp0 ++ [s] → trace.target x = length sp0 → trace.isStart x = false →
  trace.spans (trace.receive x t) = sp0 ++ [trace.onSpan x s].
Proof.
  intros Hsp Htg Hst. destruct x; simpl in *; try discriminate; subst span;
    by apply update_last.
Qed.

Lemma spans_foldl (sp0 : list trace.Span) (l : list trace.Call) (s : trace.Span)
    (t : trace.Tracer) :
  trace.spans t = sp0 ++ [s] →
  Forall (λ x, trace.target x = length sp0 ∧ trace.isStart x = false) l →
  trace.spans (foldl (λ t x, trace.receive x t) t l)
  = sp0 ++ [foldl (λ s x, trace.onSpan x s) s l].
Proof.
  intros Hsp Hall. revert s t Hsp.
  induction Hall as [|x l [Htg Hst] _ IH]; intros s t Hsp; simpl; [done|].
  apply IH. by apply receive_last.
Qed.

Lemma postProcessing_target (req : http.Request) (span : nat) (c' : macaron.Context) :
  Forall (λ x, trace.target x = span ∧ trace.isStart x = false)
         (postProcessing req span c').
Proof.
  unfold postProcessing.
  destruct (middleware.RouteOperationNameFromContext _) as [op []];
    destruct (400 <=? _); simpl; repeat constructor.
Qed.

(** The span that post-processing leaves behind, field by field. *)
Lemma span_postProcessing (name : string) (links : list trace.Link)
    (req : http.Request) (span : nat) (c' : macaron.Context) :
  foldl (λ s x, trace.onSpan x s) (trace.newSpan name links)
        (postProcessing req span c')
  = let found := middleware.RouteOperationNameFromContext (http.Ctx (macaron.Req c')) in
    let status := macaron.Status (macaron.Resp c') in
    {| trace.Name :=
         if found.2 then fmt.Sprintf_HTTP (http.Method req) found.1 else name;
       trace.Attributes :=
         <["HTTP request method" := attribute.STRING (http.Method req)]>
           (<["HTTP request URI" := attribute.STRING (http.RequestURI req)]>
              (<["HTTP response status code" := attribute.INT64 status]> ∅));
       trace.Status :=
         if 400 <=? status
         then (codes.Error, fmt.Sprintf_error (strconv.Itoa status))
         else (codes.Unset, "");
       trace.Links := links;
       trace.Ended := found.2 |}.
Proof.
  unfold postProcessing.
  destruct (middleware.RouteOperationNameFromContext _) as [op []];
    destruct (400 <=? _); reflexivity.
Qed.

(** ** Runs of [RequestTracing] *)

Section Run.

Variable Extract : context.Context → http.Header → context.Context.
Variable Next : macaron.Context → Res unit * macaron.Context.

Lemma RequestTracing_bypassed (req : http.Request) (w : World) :
  middleware.bypassed (c w) = true →
  middleware.RequestTracing Extract Next req w
  = ((Next (c w)).1,
     {| c := (Next (c w)).2; tracer := tracer w; defers := defers w |}).
Proof.
  intros Hb. unfold middleware.RequestTracing, func, mbind, M_bind, get_c. simpl.
  rewrite Hb. unfold middleware.c_Next. simpl.
  destruct (Next (c w)) as [r c']. simpl. by destruct (tracer w).
Qed.

Lemma RequestTracing_returned (req : http.Request) (w : World) (c' : macaron.Context) :
  middleware.bypassed (c w) = false →
  Next (traced req w) = (Returned tt, c') →
  middleware.RequestTracing Extract Next req w
  = (Returned tt,
     {| c := c';
        tracer := foldl (λ t x, trace.receive x t) (tracer w)
                    (startCall Extract req w :: postProcessing req (nextSpan w) c');
        defers := defers w |}).
Proof.
  intros Hb HN.
  unfold middleware.RequestTracing, func, mbind, M_bind, get_c. simpl.
  rewrite Hb. unfold Tracer_Start, middleware.set_Req, middleware.Map_Req,
    middleware.c_Next, mbind, M_bind, get_c, set_c. simpl.
  unfold traced, nextSpan in HN. rewrite HN. simpl.
  unfold postProcessing, startCall, nextSpan.
  destruct (middleware.RouteOperationNameFromContext _) as [op []]; simpl;
    destruct (400 <=? _); simpl; reflexivity.
Qed.

Lemma RequestTracing_panicked (req : http.Request) (w : World) (c' : macaron.Context)
    (v : context.any) :
  middleware.bypassed (c w) = false →
  Next (traced req w) = (Panicked v, c') →
  middleware.RequestTracing Extract Next req w
  = (Panicked v,
     {| c := c'; tracer := trace.receive (startCall Extract req w) (tracer w);
        defers := defers w |}).
Proof.
  intros Hb HN.
  unfold middleware.RequestTracing, func, mbind, M_bind, get_c. simpl.
  rewrite Hb. unfold Tracer_Start, middleware.set_Req, middleware.Map_Req,
    middleware.c_Next, mbind, M_bind, get_c, set_c. simpl.
  unfold traced, nextSpan in HN. rewrite HN. simpl. reflexivity.
Qed.

(** The calls of a traced request whose chain returns: [Start], then the
    post-processing. *)
Lemma made_returned (req : http.Request) (w : World) (c' : macaron.Context) :
  middleware.bypassed (c w) = false →
  Next (traced req w) = (Returned tt, c') →
  made w (middleware.RequestTracing Extract Next req w).2
  = startCall Extract req w :: postProcessing req (nextSpan w) c'.
Proof.
  intros Hb HN. rewrite (RequestTracing_returned req w c' Hb HN).
  unfold made. cbn [snd tracer]. rewrite calls_foldl. apply drop_app_length.
Qed.

(** The calls of a traced request whose chain panics: [Start] alone. *)
Lemma made_panicked (req : http.Request) (w : World) (c' : macaron.Context)
    (v : context.any) :
  middleware.bypassed (c w) = false →
  Next (traced req w) = (Panicked v, c') →
  made w (middleware.RequestTracing Extract Next req w).2 = [startCall Extract req w].
Proof.
  intros Hb HN. rewrite (RequestTracing_panicked req w c' v Hb HN).
  unfold made. cbn [snd tracer trace.receive trace.calls]. apply drop_app_length.
Qed.

(** The span of a traced request whose chain returns. *)
Lemma spanOf_returned (req : http.Request) (w : World) (c' : macaron.Context) :
  middleware.bypassed (c w) = false →
  Next (traced req w) = (Returned tt, c') →
  spanOf w (middleware.RequestTracing Extract Next req w).2
  = Some (foldl (λ s x, trace.onSpan x s)
            (trace.newSpan
               (fmt.Sprintf_HTTP (http.Method req) (http.Path (http.Url req)))
               [trace.LinkFromContext (Extract (http.Ctx req) (http.Headers req))])
            (postProcessing req (nextSpan w) c')).
Proof.
  intros Hb HN. rewrite (RequestTracing_returned req w c' Hb HN).
  unfold spanOf. cbn [snd tracer foldl].
  erewrite spans_foldl; [ | reflexivity | apply postProcessing_target ].
  by apply list_lookup_middle.
Qed.

End Run.

(** ** The route operation name store *)

(** C7. A context on whose chain the route operation name was never bound
    (no binding of the private key) yields found = false, with the empty
    name and without any failure: the lookup is a total function of the
    context. *)
Theorem RouteOperationNameFromContext_never_set (ctx : context.Context) :
  context.bindings context.routeOperationNameKey ctx = O →
  middleware.RouteOperationNameFromContext ctx = ("", false).
Proof.
  intros Hnone. induction ctx as [|parent IH k val].
  - reflexivity.
  - simpl in Hnone. unfold middleware.RouteOperationNameFromContext in *. simpl.
    destruct (context.key_eqb k context.routeOperationNameKey); simpl in Hnone;
      [discriminate | by apply IH].
Qed.

Lemma RouteOperationNameFromContext_never_set_witness :
  context.bindings context.routeOperationNameKey (http.Ctx sample.req) = O
  ∧ middleware.RouteOperationNameFromContext (http.Ctx sample.req) = ("", false).
Proof.
  split; [reflexivity|].
  apply (RouteOperationNameFromContext_never_set (http.Ctx sample.req)).
  reflexivity.
Defined.

(** C8. For every context and every name (the non-empty ones included),
    the handler made by [ProvideRouteOperationName name] returns without
    panicking and leaves in [c.Req] a context derived from the previous one
    on which the lookup returns (name, true).  The previous context is the
    parent of the new one and is not modified: every other key reads as
    before, and the request that is still mapped, the tracer and the
    response writer are untouched. *)
Theorem ProvideRouteOperationName_sets_name (name : string) (req : http.Request)
    (w : World) :
  let ctx := http.Ctx (macaron.Req (c w)) in
  let r := middleware.ProvideRouteOperationName name req w in
  let ctx' := http.Ctx (macaron.Req (c r.2)) in
  r.1 = Returned tt
  ∧ middleware.RouteOperationNameFromContext ctx' = (name, true)
  ∧ ctx' = context.WithValue ctx context.routeOperationNameKey (context.AnyString name)
  ∧ (∀ k, k ≠ context.routeOperationNameKey → context.Value ctx' k = context.Value ctx k)
  ∧ macaron.Mapped (c r.2) = macaron.Mapped (c w)
  ∧ macaron.Resp (c r.2) = macaron.Resp (c w)
  ∧ tracer r.2 = tracer w.
Proof.
  simpl. repeat split; try reflexivity.
  intros k Hk. destruct k; simpl; congruence.
Qed.

(** C9. Setting the route operation name twice is last-write-wins: after
    the handlers for [a] and then [b] have run, the lookup on the context of
    [c.Req] returns (b, true); on contexts, the binding of [b] derived from
    the binding of [a] reads (b, true). *)
Theorem ProvideRouteOperationName_last_write_wins (a b : string)
    (req req' : http.Request) (w : World) (ctx : context.Context) :
  let r1 := middleware.ProvideRouteOperationName a req w in
  let r2 := middleware.ProvideRouteOperationName b req' r1.2 in
  r1.1 = Returned tt ∧ r2.1 = Returned tt
  ∧ middleware.RouteOperationNameFromContext (http.Ctx (macaron.Req (c r2.2))) = (b, true)
  ∧ middleware.RouteOperationNameFromContext
      (context.WithValue
         (context.WithValue ctx context.routeOperationNameKey (context.AnyString a))
         context.routeOperationNameKey (context.AnyString b))
    = (b, true).
Proof. simpl. repeat split; reflexivity. Qed.

(** ** The request tracer *)

Section Tracer.

Variable Extract : context.Context → http.Header → context.Context.
Variable Next : macaron.Context → Res unit * macaron.Context.

(** The guard as the code writes it.  A request whose path starts with
    "/public/" or equals the literal "robots.txt" is not traced: the handler chain runs on the
    unmodified macaron context and its outcome is the outcome of the
    middleware, the tracer receives no call and holds no new span. *)
Theorem RequestTracing_static_untraced (req : http.Request) (w : World) :
  (∃ rest, http.Path (http.Url (macaron.Req (c w))) = "/public/" +:+ rest)
  ∨ http.Path (http.Url (macaron.Req (c w))) = "robots.txt" →
  let r := middleware.RequestTracing Extract Next req w in
  r = ((Next (c w)).1,
       {| c := (Next (c w)).2; tracer := tracer w; defers := defers w |})
  ∧ made w r.2 = []
  ∧ trace.spans (tracer r.2) = trace.spans (tracer w).
Proof.
  intros Hpath.
  assert (Hb : middleware.bypassed (c w) = true).
  { unfold middleware.bypassed. destruct Hpath as [[rest ->] | ->].
    - by rewrite HasPrefix_app.
    - reflexivity. }
  cbv zeta. rewrite (RequestTracing_bypassed Extract Next req w Hb).
  repeat split. unfold made. cbn [snd tracer]. apply drop_all.
Qed.

(** C6. A request that is not bypassed starts its span under the name
    "HTTP <method> <path>", built from the method and the literal URL path
    of the request: it is the first call made, whatever the chain does
    afterwards, and no later call starts a span. *)
Theorem RequestTracing_initial_name (req : http.Request) (w : World) :
  middleware.bypassed (c w) = false →
  ∃ rest,
    made w (middleware.RequestTracing Extract Next req w).2
    = trace.Start (nextSpan w)
        ("HTTP " +:+ http.Method req +:+ " " +:+ http.Path (http.Url req))
        [trace.LinkFromContext (Extract (http.Ctx req) (http.Headers req))]
      :: rest
    ∧ trace.started rest = O.
Proof.
  intros Hb. destruct (Next (traced req w)) as [[[]|v] c'] eqn:HN.
  - rewrite (made_returned Extract Next req w c' Hb HN).
    eexists. split; [reflexivity|].
    unfold postProcessing.
    destruct (middleware.RouteOperationNameFromContext _) as [op []];
      destruct (400 <=? _); reflexivity.
  - rewrite (made_panicked Extract Next req w c' v Hb HN).
    eexists. split; reflexivity.
Qed.

(** C1, as the code has it.  A request that is not bypassed starts exactly
    one span.  That span is ended exactly once when the chain returns and a
    route operation name is found in the context of [c.Req]; it is not ended
    when the chain returns without one, nor when the chain panics. *)
Theorem RequestTracing_one_start_end_when_named (req : http.Request) (w : World) :
  middleware.bypassed (c w) = false →
  let calls := made w (middleware.RequestTracing Extract Next req w).2 in
  trace.started calls = 1%nat
  ∧ trace.ended calls
    = match Next (traced req w) with
      | (Returned _, c') =>
          if (middleware.RouteOperationNameFromContext (http.Ctx (macaron.Req c'))).2
          then 1%nat else O
      | (Panicked _, _) => O
      end.
Proof.
  intros Hb. cbv zeta. destruct (Next (traced req w)) as [[[]|v] c'] eqn:HN.
  - rewrite (made_returned Extract Next req w c' Hb HN).
    unfold postProcessing.
    destruct (middleware.RouteOperationNameFromContext _) as [op []];
      destruct (400 <=? _); split; reflexivity.
  - rewrite (made_panicked Extract Next req w c' v Hb HN). split; reflexivity.
Qed.

(** C3. For a request that is not bypassed and whose chain returns: when
    the context of [c.Req] then carries the route operation name X, the span
    is named "HTTP <method> X"; when no route operation name was ever bound
    on that context, the span keeps its initial name
    "HTTP <method> <path>". *)
Theorem RequestTracing_final_name (req : http.Request) (w : World)
    (c' : macaron.Context) :
  middleware.bypassed (c w) = false →
  Next (traced req w) = (Returned tt, c') →
  let span := spanOf w (middleware.RequestTracing Extract Next req w).2 in
  (∀ X, middleware.RouteOperationNameFromContext (http.Ctx (macaron.Req c')) = (X, true) →
        trace.Name <$> span = Some ("HTTP " +:+ http.Method req +:+ " " +:+ X))
  ∧ (context.bindings context.routeOperationNameKey (http.Ctx (macaron.Req c')) = O →
     trace.Name <$> span
     = Some ("HTTP " +:+ http.Method req +:+ " " +:+ http.Path (http.Url req))).
Proof.
  intros Hb HN. cbv zeta.
  rewrite (spanOf_returned Extract Next req w c' Hb HN), span_postProcessing.
  cbv zeta. split.
  - intros X HX. rewrite HX. reflexivity.
  - intros Hnone. rewrite (RouteOperationNameFromContext_unbound _ Hnone). reflexivity.
Qed.

(** C4. For a request that is not bypassed and whose chain returns with
    response status [status]: the span carries the error status if and only
    if 400 <= status; its message is then "error with HTTP status code "
    followed by the decimal digits of the status; below 400 the status of
    the span stays unset, and [SetStatus] is not called. *)
Theorem RequestTracing_error_status (req : http.Request) (w : World)
    (c' : macaron.Context) :
  middleware.bypassed (c w) = false →
  Next (traced req w) = (Returned tt, c') →
  let w' := (middleware.RequestTracing Extract Next req w).2 in
  let status := macaron.Status (macaron.Resp c') in
  ∃ span, spanOf w w' = Some span
  ∧ ((trace.Status span).1 = codes.Error ↔ 400 ≤ status)
  ∧ (400 ≤ status →
     trace.Status span
     = (codes.Error, "error with HTTP status code " +:+ strconv.Itoa status))
  ∧ (status < 400 →
     trace.Status span = (codes.Unset, "")
     ∧ filter (λ x, trace.isSetStatus x = true) (made w w') = []).
Proof.
  intros Hb HN. cbv zeta.
  rewrite (spanOf_returned Extract Next req w c' Hb HN), span_postProcessing.
  rewrite (made_returned Extract Next req w c' Hb HN).
  cbv zeta. eexists. split; [reflexivity|]. cbn [trace.Status].
  destruct (Z.leb_spec 400 (macaron.Status (macaron.Resp c'))) as [Hge|Hlt].
  - split; [done|]. split; [done|]. intros Hlt. lia.
  - split; [split; [discriminate | lia]|]. split; [lia|]. intros _.
    split; [reflexivity|]. unfold postProcessing, startCall.
    destruct (middleware.RouteOperationNameFromContext _) as [op []];
      destruct (Z.leb_spec 400 (macaron.Status (macaron.Resp c'))); try lia;
      reflexivity.
Qed.

(** C5. For a request that is not bypassed and whose chain returns, exactly
    three attributes are attached to the span, by three [SetAttributes]
    calls: the response status code as an integer, the request URI as a
    string (the field [RequestURI], as received), and the method as a
    string. *)
Theorem RequestTracing_attributes (req : http.Request) (w : World)
    (c' : macaron.Context) :
  middleware.bypassed (c w) = false →
  Next (traced req w) = (Returned tt, c') →
  let w' := (middleware.RequestTracing Extract Next req w).2 in
  let status := macaron.Status (macaron.Resp c') in
  filter (λ x, trace.isSetAttributes x = true) (made w w')
  = [trace.SetAttributes (nextSpan w)
       {| attribute.Key := "HTTP response status code";
          attribute.Val := attribute.INT64 status |};
     trace.SetAttributes (nextSpan w)
       {| attribute.Key := "HTTP request URI";
          attribute.Val := attribute.STRING (http.RequestURI req) |};
     trace.SetAttributes (nextSpan w)
       {| attribute.Key := "HTTP request method";
          attribute.Val := attribute.STRING (http.Method req) |}]
  ∧ ∃ span, spanOf w w' = Some span
    ∧ size (trace.Attributes span) = 3%nat
    ∧ trace.Attributes span !! "HTTP response status code" = Some (attribute.INT64 status)
    ∧ trace.Attributes span !! "HTTP request URI"
      = Some (attribute.STRING (http.RequestURI req))
    ∧ trace.Attributes span !! "HTTP request method"
      = Some (attribute.STRING (http.Method req)).
Proof.
  intros Hb HN. cbv zeta.
  rewrite (spanOf_returned Extract Next req w c' Hb HN), span_postProcessing.
  rewrite (made_returned Extract Next req w c' Hb HN).
  split.
  - unfold postProcessing, startCall.
    destruct (middleware.RouteOperationNameFromContext _) as [op []];
      destruct (400 <=? _); reflexivity.
  - cbv zeta. eexists. split; [reflexivity|]. cbn [trace.Attributes].
    split; [|by simplify_map_eq].
    rewrite !map_size_insert_None, map_size_empty; [done|by simplify_map_eq..].
Qed.

(** C10. For a request that is not bypassed, whose chain returns and for
    which a route operation name X is found: the calls made are, in order,
    [Start], the rename, the three attributes, the error status when
    400 <= status, and [End] last, exactly once; the ended span carries the
    new name, the three attributes and the status. *)
Theorem RequestTracing_end_is_last (req : http.Request) (w : World)
    (c' : macaron.Context) (X : string) :
  middleware.bypassed (c w) = false →
  Next (traced req w) = (Returned tt, c') →
  middleware.RouteOperationNameFromContext (http.Ctx (macaron.Req c')) = (X, true) →
  let w' := (middleware.RequestTracing Extract Next req w).2 in
  let status := macaron.Status (macaron.Resp c') in
  let span := nextSpan w in
  let before :=
    [startCall Extract req w;
     trace.SetName span ("HTTP " +:+ http.Method req +:+ " " +:+ X);
     trace.SetAttributes span (attribute.Int "HTTP response status code" status);
     trace.SetAttributes span (attribute.String "HTTP request URI" (http.RequestURI req));
     trace.SetAttributes span (attribute.String "HTTP request method" (http.Method req))]
    ++ (if 400 <=? status
        then [trace.SetStatus span codes.Error
                ("error with HTTP status code " +:+ strconv.Itoa status)]
        else []) in
  made w w' = before ++ [trace.End_ span]
  ∧ trace.ended before = O
  ∧ spanOf w w'
    = Some {| trace.Name := "HTTP " +:+ http.Method req +:+ " " +:+ X;
              trace.Attributes :=
                <["HTTP request method" := attribute.STRING (http.Method req)]>
                  (<["HTTP request URI" := attribute.STRING (http.RequestURI req)]>
                     (<["HTTP response status code" := attribute.INT64 status]> ∅));
              trace.Status :=
                if 400 <=? status
                then (codes.Error, "error with HTTP status code " +:+ strconv.Itoa status)
                else (codes.Unset, "");
              trace.Links :=
                [trace.LinkFromContext (Extract (http.Ctx req) (http.Headers req))];
              trace.Ended := true |}.
Proof.
  intros Hb HN HX. cbv zeta.
  rewrite (spanOf_returned Extract Next req w c' Hb HN), span_postProcessing.
  rewrite (made_returned Extract Next req w c' Hb HN).
  cbv zeta. unfold postProcessing. rewrite HX.
  destruct (400 <=? _); repeat split; reflexivity.
Qed.

End Tracer.

(** ** The properties at sample requests *)

(** The code compares the path with "robots.txt", without a leading slash:
    a request for "/robots.txt" is traced like any other. *)
Example robots_with_slash_not_bypassed :
  middleware.bypassed
    (c (sample.world
          {| http.Method := "GET"; http.Url := {| http.Path := "/robots.txt" |};
             http.RequestURI := "/robots.txt"; http.Headers := ∅;
             http.Ctx := context.Background |}))
  = false.
Proof. reflexivity. Qed.

(** When the chain panics, the panic leaves [RequestTracing] before any call
    is deferred: the span is started and not ended. *)
Example RequestTracing_panic_not_ended :
  let r := middleware.RequestTracing sample.Extract (sample.panicking "/api/org/:orgId")
             sample.req (sample.world sample.req) in
  r.1 = Panicked (context.AnyString "boom")
  ∧ trace.started (made (sample.world sample.req) r.2) = 1%nat
  ∧ trace.ended (made (sample.world sample.req) r.2) = O.
Proof. repeat split; reflexivity. Qed.

(** C1 as stated fails: a traced request on a route without a name, answered
    with status 200, starts its span and never ends it. *)
Lemma RequestTracing_unnamed_route_not_ended :
  ¬ (∀ (Extract : context.Context → http.Header → context.Context)
       (Next : macaron.Context → Res unit * macaron.Context)
       (req : http.Request) (w : World),
       middleware.bypassed (c w) = false →
       let calls := made w (middleware.RequestTracing Extract Next req w).2 in
       trace.started calls = 1%nat ∧ trace.ended calls = 1%nat).
Proof.
  intros H.
  destruct (H sample.Extract (sample.unnamed 200) sample.req
              (sample.world sample.req) eq_refl) as [_ Hended].
  vm_compute in Hended. discriminate Hended.
Qed.

Lemma RequestTracing_one_start_end_when_named_witness :
  middleware.bypassed (c (sample.world sample.req)) = false
  ∧ let calls :=
      made (sample.world sample.req)
        (middleware.RequestTracing sample.Extract
           (sample.named "/api/org/preferences/" 403) sample.req
           (sample.world sample.req)).2 in
    trace.started calls = 1%nat ∧ trace.ended calls = 1%nat.
Proof.
  split; [reflexivity|].
  apply (RequestTracing_one_start_end_when_named sample.Extract
           (sample.named "/api/org/preferences/" 403) sample.req
           (sample.world sample.req)).
  reflexivity.
Defined.

Lemma RequestTracing_static_untraced_witness :
  let w := sample.world sample.static in
  let r := middleware.RequestTracing sample.Extract (sample.unnamed 200)
             sample.static w in
  r = ((sample.unnamed 200 (c w)).1,
       {| c := (sample.unnamed 200 (c w)).2; tracer := tracer w; defers := defers w |})
  ∧ made w r.2 = []
  ∧ trace.spans (tracer r.2) = trace.spans (tracer w).
Proof.
  apply (RequestTracing_static_untraced sample.Extract (sample.unnamed 200)
           sample.static (sample.world sample.static)).
  left. exists "img/grafana_icon.svg". reflexivity.
Defined.

Lemma RequestTracing_initial_name_witness :
  ∃ rest,
    made (sample.world sample.req)
      (middleware.RequestTracing sample.Extract (sample.panicking "/api/org/preferences/")
         sample.req (sample.world sample.req)).2
    = trace.Start O "HTTP GET /api/org/preferences/"
        [trace.LinkFromContext
           (sample.Extract (http.Ctx sample.req) (http.Headers sample.req))]
      :: rest
    ∧ trace.started rest = O.
Proof.
  apply (RequestTracing_initial_name sample.Extract
           (sample.panicking "/api/org/preferences/") sample.req
           (sample.world sample.req)).
  reflexivity.
Defined.

Lemma RequestTracing_final_name_witness :
  trace.Name <$> spanOf (sample.world sample.req)
    (middleware.RequestTracing sample.Extract (sample.named "/api/org/:orgId" 200)
       sample.req (sample.world sample.req)).2
  = Some "HTTP GET /api/org/:orgId".
Proof.
  pose proof (RequestTracing_final_name sample.Extract
                (sample.named "/api/org/:orgId" 200) sample.req
                (sample.world sample.req)
                (sample.named "/api/org/:orgId" 200
                   (traced sample.req (sample.world sample.req))).2
                eq_refl eq_refl) as [Hnamed _].
  apply (Hnamed "/api/org/:orgId"). reflexivity.
Defined.

Lemma RequestTracing_error_status_witness :
  ∃ span,
    spanOf (sample.world sample.req)
      (middleware.RequestTracing sample.Extract (sample.unnamed 404)
         sample.req (sample.world sample.req)).2
    = Some span
    ∧ trace.Status span = (codes.Error, "error with HTTP status code 404").
Proof.
  destruct (RequestTracing_error_status sample.Extract (sample.unnamed 404)
              sample.req (sample.world sample.req)
              (sample.unnamed 404 (traced sample.req (sample.world sample.req))).2
              eq_refl eq_refl) as (span & Hspan & _ & Herror & _).
  exists span. split; [exact Hspan|]. apply Herror. vm_compute. discriminate.
Defined.

Lemma RequestTracing_attributes_witness :
  ∃ span,
    spanOf (sample.world sample.req)
      (middleware.RequestTracing sample.Extract (sample.named "/api/org/preferences/" 403)
         sample.req (sample.world sample.req)).2
    = Some span
    ∧ size (trace.Attributes span) = 3%nat
    ∧ trace.Attributes span !! "HTTP response status code" = Some (attribute.INT64 403)
    ∧ trace.Attributes span !! "HTTP request URI"
      = Some (attribute.STRING "/api/org/preferences/?theme=dark")
    ∧ trace.Attributes span !! "HTTP request method" = Some (attribute.STRING "GET").
Proof.
  destruct (RequestTracing_attributes sample.Extract
              (sample.named "/api/org/preferences/" 403)
              sample.req (sample.world sample.req)
              (sample.named "/api/org/preferences/" 403
                 (traced sample.req (sample.world sample.req))).2
              eq_refl eq_refl) as [_ Hspan].
  exact Hspan.
Defined.

Lemma RequestTracing_end_is_last_witness :
  made (sample.world sample.req)
    (middleware.RequestTracing sample.Extract (sample.named "/api/org/preferences/" 403)
       sample.req (sample.world sample.req)).2
  = [startCall sample.Extract sample.req (sample.world sample.req);
     trace.SetName O "HTTP GET /api/org/preferences/";
     trace.SetAttributes O (attribute.Int "HTTP response status code" 403);
     trace.SetAttributes O (attribute.String "HTTP request URI"
                              "/api/org/preferences/?theme=dark");
     trace.SetAttributes O (attribute.String "HTTP request method" "GET");
     trace.SetStatus O codes.Error "error with HTTP status code 403";
     trace.End_ O].
Proof.
  destruct (RequestTracing_end_is_last sample.Extract
              (sample.named "/api/org/preferences/" 403)
              sample.req (sample.world sample.req)
              (sample.named "/api/org/preferences/" 403
                 (traced sample.req (sample.world sample.req))).2
              "/api/org/preferences/"
              eq_refl eq_refl eq_refl) as [Hmade _].
  exact Hmade.
Defined.

(** * Further properties of the middleware *)

(** ** Contexts derived by other middleware *)

(** X1. Deriving a context any number of times under keys other than the
    private route operation name key does not change what
    [RouteOperationNameFromContext] returns. *)
Theorem RouteOperationNameFromContext_derive (ctx : context.Context)
    (kvs : list (context.key * context.any)) :
  Forall (λ kv, kv.1 ≠ context.routeOperationNameKey) kvs →
  middleware.RouteOperationNameFromContext (derive ctx kvs)
  = middleware.RouteOperationNameFromContext ctx.
Proof.
  intros Hall. revert ctx.
  induction Hall as [|[k v] kvs Hk _ IH]; intros ctx; [reflexivity|].
  unfold derive in *. cbn [foldl fst snd]. rewrite IH.
  unfold middleware.RouteOperationNameFromContext.
  by rewrite Value_derived_ne.
Qed.

Lemma RouteOperationNameFromContext_derive_witness :
  middleware.RouteOperationNameFromContext
    (derive (context.WithValue context.Background context.routeOperationNameKey
               (context.AnyString "/api/org/:orgId"))
       [(context.currentSpanKey, context.AnySpan 3);
        (context.otherKey 1, context.AnyString "user")])
  = ("/api/org/:orgId", true).
Proof.
  rewrite RouteOperationNameFromContext_derive; [reflexivity|].
  repeat constructor; discriminate.
Defined.

(** ** Splitting a path at a prefix *)

Lemma HasPrefix_inv (p s : string) :
  strings.HasPrefix s p = true → ∃ rest, s = p +:+ rest.
Proof.
  unfold strings.HasPrefix. revert s.
  induction p as [|a p IH]; intros s Hp; simpl in *.
  - by exists s.
  - destruct s as [|b s]; [discriminate|]. simpl in Hp.
    destruct (Ascii.ascii_dec a b) as [Hab|]; [subst b|discriminate].
    destruct (IH s Hp) as [rest ->]. by exists rest.
Qed.

Lemma bypassed_iff (c0 : macaron.Context) :
  middleware.bypassed c0 = true
  ↔ (∃ rest, http.Path (http.Url (macaron.Req c0)) = "/public/" +:+ rest)
    ∨ http.Path (http.Url (macaron.Req c0)) = "robots.txt".
Proof.
  unfold middleware.bypassed. rewrite orb_true_iff. split.
  - intros [Hp|He]; [left; by apply HasPrefix_inv | right; by apply String.eqb_eq].
  - intros [[rest ->] | ->]; [left; apply HasPrefix_app | right; reflexivity].
Qed.

(** ** What every run keeps *)

Lemma made_app (w w1 w2 : World) :
  trace.calls (tracer w1) = trace.calls (tracer w) ++ made w w1 →
  trace.calls (tracer w2) = trace.calls (tracer w1) ++ made w1 w2 →
  made w w2 = made w w1 ++ made w1 w2.
Proof.
  intros H1 H2. unfold made at 1. rewrite H2, H1, <- app_assoc.
  apply drop_app_length.
Qed.

Section Frame.

Variable Extract : context.Context → http.Header → context.Context.
Variable Next : macaron.Context → Res unit * macaron.Context.

(** The tracer after a run: the old log followed by the calls made, the old
    spans followed by the span of the request when it is traced. *)
Lemma tracer_after (req : http.Request) (w : World) :
  let w' := (middleware.RequestTracing Extract Next req w).2 in
  trace.calls (tracer w') = trace.calls (tracer w) ++ made w w'
  ∧ Forall (λ x, trace.target x = nextSpan w) (made w w')
  ∧ trace.started (made w w') = (if middleware.bypassed (c w) then O else 1%nat)
  ∧ if middleware.bypassed (c w)
    then trace.spans (tracer w') = trace.spans (tracer w) ∧ made w w' = []
    else ∃ s rest, trace.spans (tracer w') = trace.spans (tracer w) ++ [s]
                   ∧ made w w' = startCall Extract req w :: rest.
Proof.
  cbv zeta. destruct (middleware.bypassed (c w)) eqn:Hb.
  - rewrite (RequestTracing_bypassed Extract Next req w Hb).
    unfold made. cbn [snd tracer]. rewrite drop_all, app_nil_r. done.
  - destruct (Next (traced req w)) as [[[]|v] c'] eqn:HN.
    + rewrite (made_returned Extract Next req w c' Hb HN).
      rewrite (RequestTracing_returned Extract Next req w c' Hb HN).
      cbn [snd tracer]. rewrite calls_foldl. split; [done|]. split; [|split].
      * constructor; [reflexivity|].
        eapply Forall_impl; [apply postProcessing_target|]. by intros x [Hx _].
      * unfold postProcessing.
        destruct (middleware.RouteOperationNameFromContext _) as [op []];
          destruct (400 <=? _); reflexivity.
      * cbn [foldl]. eexists _, _. split; [|reflexivity].
        eapply spans_foldl; [reflexivity | apply postProcessing_target].
    + rewrite (made_panicked Extract Next req w c' v Hb HN).
      rewrite (RequestTracing_panicked Extract Next req w c' v Hb HN).
      cbn [snd tracer]. split; [done|]. split; [by repeat constructor|].
      split; [reflexivity|]. eexists _, _. split; reflexivity.
Qed.


(** X2. Tracing does not change how the request ends: the middleware
    returns or panics, with the same panic value, exactly as the rest of the
    chain does on the macaron context it is handed (the unmodified one for a
    bypassed request, the span-bearing one otherwise), and it leaves the
    macaron context as the chain left it. *)
Theorem RequestTracing_outcome (req : http.Request) (w : World) :
  let handed := if middleware.bypassed (c w) then c w else traced req w in
  let r := middleware.RequestTracing Extract Next req w in
  r.1 = (Next handed).1 ∧ c r.2 = (Next handed).2 ∧ defers r.2 = defers w.
Proof.
  cbv zeta. destruct (middleware.bypassed (c w)) eqn:Hb.
  - by rewrite (RequestTracing_bypassed Extract Next req w Hb).
  - destruct (Next (traced req w)) as [[[]|v] c'] eqn:HN.
    + by rewrite (RequestTracing_returned Extract Next req w c' Hb HN).
    + by rewrite (RequestTracing_panicked Extract Next req w c' v Hb HN).
Qed.

(** X4. A run only touches its own span: every span the tracer had handed
    out before is left as it was, the log of calls is only extended, and
    every call made is on the span started for this request. *)
Theorem RequestTracing_own_span_only (req : http.Request) (w : World) :
  let w' := (middleware.RequestTracing Extract Next req w).2 in
  (∀ i s, trace.spans (tracer w) !! i = Some s → trace.spans (tracer w') !! i = Some s)
  ∧ trace.calls (tracer w') = trace.calls (tracer w) ++ made w w'
  ∧ Forall (λ x, trace.target x = nextSpan w) (made w w').
Proof.
  cbv zeta. destruct (tracer_after req w) as (Hcalls & Htarget & _ & Hspans).
  split; [|done]. intros i s Hi.
  destruct (middleware.bypassed (c w)).
  - destruct Hspans as [-> _]. exact Hi.
  - destruct Hspans as (s' & rest & -> & _). by apply lookup_app_l_Some.
Qed.

(** X5. When the rest of the chain panics on a traced request, the panic
    goes through the middleware with its value; the only call made is
    [Start], so the span stays as started: initial name, no attribute, status
    unset, not ended. *)
Theorem RequestTracing_panic (req : http.Request) (w : World)
    (c' : macaron.Context) (v : context.any) :
  middleware.bypassed (c w) = false →
  Next (traced req w) = (Panicked v, c') →
  let r := middleware.RequestTracing Extract Next req w in
  r.1 = Panicked v
  ∧ c r.2 = c'
  ∧ made w r.2 = [startCall Extract req w]
  ∧ spanOf w r.2
    = Some {| trace.Name :=
                "HTTP " +:+ http.Method req +:+ " " +:+ http.Path (http.Url req);
              trace.Attributes := ∅;
              trace.Status := (codes.Unset, "");
              trace.Links :=
                [trace.LinkFromContext (Extract (http.Ctx req) (http.Headers req))];
              trace.Ended := false |}.
Proof.
  intros Hb HN. cbv zeta.
  rewrite (made_panicked Extract Next req w c' v Hb HN).
  rewrite (RequestTracing_panicked Extract Next req w c' v Hb HN).
  repeat split. unfold spanOf, nextSpan. cbn [snd tracer].
  by apply list_lookup_middle.
Qed.

(** X6. When the chain returns on a route without a name, the span still
    receives the three attributes and, from status 400 on, the error status,
    but it keeps its initial name and is left open: no [SetName], no [End]. *)
Theorem RequestTracing_unnamed_left_open (req : http.Request) (w : World)
    (c' : macaron.Context) :
  middleware.bypassed (c w) = false →
  Next (traced req w) = (Returned tt, c') →
  context.bindings context.routeOperationNameKey (http.Ctx (macaron.Req c')) = O →
  let w' := (middleware.RequestTracing Extract Next req w).2 in
  let status := macaron.Status (macaron.Resp c') in
  let span := nextSpan w in
  made w w'
  = [startCall Extract req w;
     trace.SetAttributes span (attribute.Int "HTTP response status code" status);
     trace.SetAttributes span (attribute.String "HTTP request URI" (http.RequestURI req));
     trace.SetAttributes span (attribute.String "HTTP request method" (http.Method req))]
    ++ (if 400 <=? status
        then [trace.SetStatus span codes.Error
                ("error with HTTP status code " +:+ strconv.Itoa status)]
        else [])
  ∧ spanOf w w'
    = Some {| trace.Name :=
                "HTTP " +:+ http.Method req +:+ " " +:+ http.Path (http.Url req);
              trace.Attributes :=
                <["HTTP request method" := attribute.STRING (http.Method req)]>
                  (<["HTTP request URI" := attribute.STRING (http.RequestURI req)]>
                     (<["HTTP response status code" := attribute.INT64 status]> ∅));
              trace.Status :=
                if 400 <=? status
                then (codes.Error, "error with HTTP status code " +:+ strconv.Itoa status)
                else (codes.Unset, "");
              trace.Links :=
                [trace.LinkFromContext (Extract (http.Ctx req) (http.Headers req))];
              trace.Ended := false |}.
Proof.
  intros Hb HN Hnone. cbv zeta.
  rewrite (spanOf_returned Extract Next req w c' Hb HN), span_postProcessing.
  rewrite (made_returned Extract Next req w c' Hb HN).
  cbv zeta. unfold postProcessing.
  rewrite (RouteOperationNameFromContext_unbound _ Hnone).
  destruct (400 <=? _); split; reflexivity.
Qed.

(** X7. The tracer makes no call at all exactly for the requests whose
    [c.Req] path starts with "/public/" or equals "robots.txt"; for every
    other path, "/robots.txt" and "/public" included, a span is started. *)
Theorem RequestTracing_untraced_iff (req : http.Request) (w : World) :
  made w (middleware.RequestTracing Extract Next req w).2 = []
  ↔ (∃ rest, http.Path (http.Url (macaron.Req (c w))) = "/public/" +:+ rest)
    ∨ http.Path (http.Url (macaron.Req (c w))) = "robots.txt".
Proof.
  rewrite <- bypassed_iff.
  destruct (tracer_after req w) as (_ & _ & _ & Hmade).
  destruct (middleware.bypassed (c w)).
  - by destruct Hmade as [_ ->].
  - destruct Hmade as (s & rest & _ & ->). split; discriminate.
Qed.

End Frame.

(** X3. What the rest of the chain is handed for a traced request, seen by
    a chain that returns at once: [c.Req] and the mapped request are the
    same request; it has the method, URL, URI and headers of [req]; its
    context carries the span just started and reads every other key as the
    context of [req] does (not as the context [c.Req] held before); the
    response writer is the one of [c]. *)
Theorem RequestTracing_hands_span_downstream
    (Extract : context.Context → http.Header → context.Context)
    (req : http.Request) (w : World) :
  middleware.bypassed (c w) = false →
  let c' := c (middleware.RequestTracing Extract returning req w).2 in
  let ctx := http.Ctx (macaron.Req c') in
  macaron.Mapped c' = macaron.Req c'
  ∧ context.Value ctx context.currentSpanKey = context.AnySpan (nextSpan w)
  ∧ (∀ k, k ≠ context.currentSpanKey → context.Value ctx k = context.Value (http.Ctx req) k)
  ∧ middleware.RouteOperationNameFromContext ctx
    = middleware.RouteOperationNameFromContext (http.Ctx req)
  ∧ http.Method (macaron.Req c') = http.Method req
  ∧ http.Url (macaron.Req c') = http.Url req
  ∧ http.RequestURI (macaron.Req c') = http.RequestURI req
  ∧ http.Headers (macaron.Req c') = http.Headers req
  ∧ macaron.Resp c' = macaron.Resp (c w).
Proof.
  intros Hb. cbv zeta.
  rewrite (RequestTracing_returned Extract returning req w (traced req w) Hb eq_refl).
  cbn [snd c traced macaron.Req macaron.Mapped macaron.Resp http.WithContext
       http.Ctx http.Method http.Url http.RequestURI http.Headers].
  split; [reflexivity|]. split; [reflexivity|]. split.
  { intros k Hk. by apply Value_derived_ne. }
  split; [|done].
  unfold middleware.RouteOperationNameFromContext.
  by rewrite Value_derived_ne.
Qed.

(** X8. Two traced requests handled one after the other get two distinct
    spans: the second run starts the next handle and leaves the span of the
    first as the first run left it; together they start two spans. *)
Theorem RequestTracing_twice
    (Extract : context.Context → http.Header → context.Context)
    (Next1 Next2 : macaron.Context → Res unit * macaron.Context)
    (req1 req2 : http.Request) (w : World) :
  let w1 := (middleware.RequestTracing Extract Next1 req1 w).2 in
  let w2 := (middleware.RequestTracing Extract Next2 req2 w1).2 in
  middleware.bypassed (c w) = false →
  middleware.bypassed (c w1) = false →
  nextSpan w1 = S (nextSpan w)
  ∧ is_Some (spanOf w w1)
  ∧ spanOf w w2 = spanOf w w1
  ∧ is_Some (spanOf w1 w2)
  ∧ made w w2 = made w w1 ++ made w1 w2
  ∧ trace.started (made w w2) = 2%nat.
Proof.
  intros w1 w2 Hb Hb1.
  destruct (tracer_after Extract Next1 req1 w) as (Hc1 & _ & Hst1 & Hsp1).
  destruct (tracer_after Extract Next2 req2 w1) as (Hc2 & _ & Hst2 & Hsp2).
  fold w1 in Hc1, Hst1, Hsp1. fold w2 in Hc2, Hst2, Hsp2.
  rewrite Hb in Hst1, Hsp1. rewrite Hb1 in Hst2, Hsp2.
  destruct Hsp1 as (s1 & r1 & Hs1 & _). destruct Hsp2 as (s2 & r2 & Hs2 & _).
  assert (Hn : nextSpan w1 = S (nextSpan w)).
  { unfold nextSpan. rewrite Hs1, length_app. simpl. lia. }
  assert (H1 : spanOf w w1 = Some s1).
  { unfold spanOf, nextSpan. rewrite Hs1. by apply list_lookup_middle. }
  split; [exact Hn|]. split; [by rewrite H1|]. split; [|split; [|split]].
  - rewrite H1. unfold spanOf. rewrite Hs2. apply lookup_app_l_Some.
    unfold nextSpan. rewrite Hs1. by apply list_lookup_middle.
  - unfold spanOf, nextSpan. rewrite Hs2. rewrite list_lookup_middle; done.
  - by apply made_app.
  - rewrite (made_app w w1 w2 Hc1 Hc2). unfold trace.started in *.
    rewrite filter_app, length_app, Hst1, Hst2. reflexivity.
Qed.

(** X9. The two handlers of the package together: when the rest of the
    chain of a traced request invokes the handler made by
    [ProvideRouteOperationName name] and then answers with any status, the
    span ends up named "HTTP <method> <name>" and ended, [End] being the last
    call and the only one of its kind. *)
Theorem RequestTracing_with_ProvideRouteOperationName
    (Extract : context.Context → http.Header → context.Context)
    (name : string) (status : Z) (req : http.Request) (w : World) :
  middleware.bypassed (c w) = false →
  let w' := (middleware.RequestTracing Extract (sample.named name status) req w).2 in
  (∃ span, spanOf w w' = Some span
     ∧ trace.Name span = "HTTP " +:+ http.Method req +:+ " " +:+ name
     ∧ trace.Ended span = true
     ∧ trace.Attributes span !! "HTTP response status code" = Some (attribute.INT64 status))
  ∧ last (made w w') = Some (trace.End_ (nextSpan w))
  ∧ trace.ended (made w w') = 1%nat.
Proof.
  intros Hb. cbv zeta.
  pose (c' := (sample.named name status (traced req w)).2).
  assert (HN : sample.named name status (traced req w) = (Returned tt, c')) by reflexivity.
  assert (HX : middleware.RouteOperationNameFromContext (http.Ctx (macaron.Req c'))
               = (name, true)) by reflexivity.
  rewrite (spanOf_returned Extract _ req w c' Hb HN), span_postProcessing.
  rewrite (made_returned Extract _ req w c' Hb HN).
  cbv zeta. unfold postProcessing. rewrite HX. split.
  - eexists. split; [reflexivity|]. cbn [trace.Name trace.Ended trace.Attributes snd fst].
    split; [reflexivity|]. split; [reflexivity|]. by simplify_map_eq.
  - destruct (400 <=? _); split; reflexivity.
Qed.

(** ** The further properties at sample requests *)

Lemma RequestTracing_panic_witness :
  let r := middleware.RequestTracing sample.Extract (sample.panicking "/api/org/:orgId")
             sample.req (sample.world sample.req) in
  r.1 = Panicked (context.AnyString "boom")
  ∧ made (sample.world sample.req) r.2
    = [startCall sample.Extract sample.req (sample.world sample.req)].
Proof.
  destruct (RequestTracing_panic sample.Extract (sample.panicking "/api/org/:orgId")
              sample.req (sample.world sample.req)
              (sample.panicking "/api/org/:orgId"
                 (traced sample.req (sample.world sample.req))).2
              (context.AnyString "boom") eq_refl eq_refl) as (Hr & _ & Hmade & _).
  split; [exact Hr | exact Hmade].
Defined.

Lemma RequestTracing_unnamed_left_open_witness :
  trace.Ended <$> spanOf (sample.world sample.req)
    (middleware.RequestTracing sample.Extract (sample.unnamed 500) sample.req
       (sample.world sample.req)).2
  = Some false.
Proof.
  destruct (RequestTracing_unnamed_left_open sample.Extract (sample.unnamed 500)
              sample.req (sample.world sample.req)
              (sample.unnamed 500 (traced sample.req (sample.world sample.req))).2
              eq_refl eq_refl eq_refl) as [_ Hspan].
  rewrite Hspan. reflexivity.
Defined.

Lemma RequestTracing_hands_span_downstream_witness :
  let c' := c (middleware.RequestTracing sample.Extract returning sample.req
                 (sample.world sample.req)).2 in
  context.Value (http.Ctx (macaron.Req c')) context.currentSpanKey = context.AnySpan O
  ∧ context.Value (http.Ctx (macaron.Req c')) (context.otherKey 7) = context.AnyOther 1.
Proof.
  destruct (RequestTracing_hands_span_downstream sample.Extract sample.req
              (sample.world sample.req) eq_refl) as (_ & Hspan & Hother & _).
  split; [exact Hspan|].
  rewrite Hother; [reflexivity | discriminate].
Defined.

Lemma RequestTracing_twice_witness :
  let w := sample.world sample.req in
  let w1 := (middleware.RequestTracing sample.Extract
               (sample.named "/api/org/:orgId" 200) sample.req w).2 in
  let w2 := (middleware.RequestTracing sample.Extract (sample.unnamed 404)
               sample.req w1).2 in
  nextSpan w1 = 1%nat ∧ spanOf w w2 = spanOf w w1 ∧ trace.started (made w w2) = 2%nat.
Proof.
  destruct (RequestTracing_twice sample.Extract (sample.named "/api/org/:orgId" 200)
              (sample.unnamed 404) sample.req sample.req (sample.world sample.req)
              eq_refl eq_refl) as (Hn & _ & Hsame & _ & _ & Hstarted).
  split; [exact Hn|]. split; [exact Hsame | exact Hstarted].
Defined.

Lemma RequestTracing_with_ProvideRouteOperationName_witness :
  trace.ended
    (made (sample.world sample.req)
       (middleware.RequestTracing sample.Extract (sample.named "/api/org/:orgId" 403)
          sample.req (sample.world sample.req)).2)
  = 1%nat.
Proof.
  destruct (RequestTracing_with_ProvideRouteOperationName sample.Extract
              "/api/org/:orgId" 403 sample.req (sample.world sample.req) eq_refl)
    as (_ & _ & Hended).
  exact Hended.
Defined.

(** * Properties of the Azure Monitor datasource *)

Lemma isValidConfigField_false (field : option string) :
  azure.isValidConfigField field = false ↔ field = None ∨ field = Some "".
Proof.
  destruct field as [[|a s]|]; simpl; split; try done; try (by right); try (by left).
  - intros [|]; discriminate.
Qed.

Lemma isValidConfigField_true (field : option string) :
  azure.isValidConfigField field = true ↔ ∃ s, field = Some s ∧ s ≠ "".
Proof.
  destruct field as [[|a s]|]; simpl; split; try done.
  - intros (s & [= <-] & Hs). done.
  - intros _. by eexists.
  - intros (s & [=] & _).
Qed.

(** X10. The datasource counts as configured exactly when it does not
    authenticate with a client secret, or when both the tenant id and the
    client id are present and non-empty. *)
Theorem isConfigured_iff (this : azure.AzureMonitorDatasource) :
  azure.isConfigured this = true
  ↔ azure.authType this ≠ "clientsecret"
    ∨ (∃ t k, azure.tenantId (azure.jsonData this) = Some t ∧ t ≠ ""
              ∧ azure.clientId (azure.jsonData this) = Some k ∧ k ≠ "").
Proof.
  unfold azure.isConfigured, azure.validateDatasource.
  destruct (String.eqb_spec (azure.authType this) "clientsecret") as [Heq|Hne].
  - destruct (azure.isValidConfigField (azure.tenantId _)) eqn:Ht; simpl.
    + destruct (azure.isValidConfigField (azure.clientId _)) eqn:Hk; simpl.
      * apply isValidConfigField_true in Ht as (t & Ht & Hte).
        apply isValidConfigField_true in Hk as (k & Hk & Hke).
        split; [|done]. intros _. right. by exists t, k.
      * split; [done|]. intros [Hne|(t & k & _ & _ & Hk' & Hke)]; [done|].
        assert (azure.isValidConfigField (azure.clientId (azure.jsonData this)) = true)
          by (apply isValidConfigField_true; by exists k).
        congruence.
    + split; [done|]. intros [Hne|(t & k & Ht' & Hte & _)]; [done|].
      assert (azure.isValidConfigField (azure.tenantId (azure.jsonData this)) = true)
        by (apply isValidConfigField_true; by exists t).
      congruence.
  - split; [|done]. intros _. by left.
Qed.

Section Datasource.

Variables Json Err : Type.
Variable backend : string → azure.Promise Err Json.
Variable parseSubscriptions : Json → azure.Promise Err (list azure.Entry).
Variable parseResponseValues : Json → string → string → azure.Promise Err (list azure.Entry).
Variable parseResourceNames : Json → string → azure.Promise Err (list azure.Entry).
Variable toLowerCase : string → string.
Variable resourceTypeDisplayNames : gmap string string.

(** X11. With client-secret authentication and a tenant id or client id
    that is missing or empty, [getSubscriptions] resolves to the empty list
    and issues no request. *)
Theorem getSubscriptions_unconfigured (this : azure.AzureMonitorDatasource) :
  azure.authType this = "clientsecret" →
  (azure.tenantId (azure.jsonData this) = None
   ∨ azure.tenantId (azure.jsonData this) = Some "")
  ∨ (azure.clientId (azure.jsonData this) = None
     ∨ azure.clientId (azure.jsonData this) = Some "") →
  azure.getSubscriptions backend parseSubscriptions this = ([], azure.Fulfilled []).
Proof.
  intros Hauth Hmissing.
  unfold azure.getSubscriptions, azure.isConfigured, azure.validateDatasource.
  rewrite Hauth. cbn [String.eqb Ascii.eqb Bool.eqb andb].
  destruct Hmissing as [Ht|Hk].
  - apply isValidConfigField_false in Ht. rewrite Ht. reflexivity.
  - apply isValidConfigField_false in Hk. rewrite Hk.
    destruct (azure.isValidConfigField (azure.tenantId _)); reflexivity.
Qed.

Lemma isSupported_iff (supported : list string) (t : azure.Entry) :
  azure.isSupported toLowerCase supported t = true
  ↔ ∃ ns, In ns supported ∧ toLowerCase (azure.value t) = toLowerCase ns.
Proof.
  induction supported as [|ns rest IH]; simpl.
  - split; [discriminate | by intros (ns & [] & _)].
  - destruct (String.eqb_spec (toLowerCase (azure.value t)) (toLowerCase ns)) as [Heq|Hne].
    + split; [|done]. intros _. exists ns. by split; [left|].
    + rewrite IH. split.
      * intros (ns' & Hin & Heq). exists ns'. by split; [right|].
      * intros (ns' & [<-|Hin] & Heq); [done|]. by exists ns'.
Qed.

Lemma shouldHardcodeBlobStorage_iff (result : list azure.Entry) :
  azure.shouldHardcodeBlobStorage result = true
  ↔ ∃ t, In t result ∧ azure.value t = "Microsoft.Storage/storageAccounts".
Proof.
  induction result as [|t rest IH]; simpl.
  - split; [discriminate | by intros (t & [] & _)].
  - destruct (String.eqb_spec (azure.value t) "Microsoft.Storage/storageAccounts")
      as [Heq|Hne].
    + split; [|done]. intros _. exists t. by split; [left|].
    + rewrite IH. split.
      * intros (t' & Hin & Heq). exists t'. by split; [right|].
      * intros (t' & [<-|Hin] & Heq); [done|]. by exists t'.
Qed.

(** The URL that [getMetricDefinitions] and [getResourceNames] request. *)
Lemma getMetricDefinitions_then (this : azure.AzureMonitorDatasource)
    (subscriptionId resourceGroup : string) (json : Json) (parsed : list azure.Entry) :
  let url := azure.resourcePath this +:+ "/" +:+ subscriptionId +:+ "/resourceGroups/"
             +:+ resourceGroup +:+ "/resources?api-version=2018-01-01" in
  backend url = azure.Fulfilled json →
  parseResponseValues json "type" "type" = azure.Fulfilled parsed →
  azure.getMetricDefinitions backend parseResponseValues toLowerCase
    resourceTypeDisplayNames this subscriptionId resourceGroup
  = ([url],
     azure.Fulfilled
       (map (λ v, {| azure.shown.value := azure.value v;
                     azure.shown.text :=
                       azure.orElse
                         (azure.get resourceTypeDisplayNames (toLowerCase (azure.value v)))
                         (azure.value v) |})
          (let kept := List.filter
                         (azure.isSupported toLowerCase (azure.supportedMetricNamespaces this))
                         parsed in
           if azure.shouldHardcodeBlobStorage kept
           then kept ++ azure.storageServices else kept))).
Proof.
  intros url Hb Hp. unfold azure.getMetricDefinitions, azure.getResource.
  change (azure.resourcePath this +:+ "/" +:+ subscriptionId +:+ "/resourceGroups/"
          +:+ resourceGroup +:+ "/resources?api-version=" +:+ azure.apiVersion)
    with url.
  cbv zeta. unfold azure.then_ at 3. rewrite Hb.
  unfold azure.then_ at 2. rewrite Hp. reflexivity.
Qed.

Lemma existsb_eqb_In (key : string) (l : list string) :
  existsb (String.eqb key) l = true ↔ In key l.
Proof.
  rewrite existsb_exists. split.
  - intros (x & Hin & Heq). apply String.eqb_eq in Heq. by subst x.
  - intros Hin. exists key. split; [exact Hin | apply String.eqb_refl].
Qed.

Lemma orElse_nonempty (a : azure.Property) (b : string) :
  b ≠ "" → azure.orElse a b ≠ azure.Text "".
Proof.
  intros Hb. destruct a as [|s|name]; simpl; [congruence| |discriminate].
  destruct (String.eqb_spec s ""); congruence.
Qed.

(** X12. When the backend answers and the parser returns [parsed],
    [getMetricDefinitions] issues that single request and offers exactly the
    values of the parsed entries whose value equals a supported namespace up
    to letter case, plus the four storage services when one of those kept
    values is exactly "Microsoft.Storage/storageAccounts". *)
Theorem getMetricDefinitions_values (this : azure.AzureMonitorDatasource)
    (subscriptionId resourceGroup : string) (json : Json) (parsed : list azure.Entry) :
  let url := azure.resourcePath this +:+ "/" +:+ subscriptionId +:+ "/resourceGroups/"
             +:+ resourceGroup +:+ "/resources?api-version=2018-01-01" in
  let supported t :=
    ∃ ns, In ns (azure.supportedMetricNamespaces this)
          ∧ toLowerCase (azure.value t) = toLowerCase ns in
  backend url = azure.Fulfilled json →
  parseResponseValues json "type" "type" = azure.Fulfilled parsed →
  ∃ out,
    azure.getMetricDefinitions backend parseResponseValues toLowerCase
      resourceTypeDisplayNames this subscriptionId resourceGroup
    = ([url], azure.Fulfilled out)
    ∧ ∀ v, In v (map azure.shown.value out)
           ↔ (∃ t, In t parsed ∧ supported t ∧ azure.value t = v)
             ∨ ((∃ t, In t parsed ∧ supported t
                      ∧ azure.value t = "Microsoft.Storage/storageAccounts")
                ∧ In v (map azure.value azure.storageServices)).
Proof.
  intros url supported Hb Hp.
  rewrite (getMetricDefinitions_then this subscriptionId resourceGroup json parsed Hb Hp).
  eexists. split; [reflexivity|]. intros v.
  rewrite map_map. cbn [azure.shown.value]. cbv zeta.
  assert (Hkept : ∀ t, In t (List.filter
                               (azure.isSupported toLowerCase
                                  (azure.supportedMetricNamespaces this)) parsed)
                       ↔ In t parsed ∧ supported t).
  { intros t. rewrite filter_In, isSupported_iff. reflexivity. }
  destruct (azure.shouldHardcodeBlobStorage _) eqn:Hs.
  - apply shouldHardcodeBlobStorage_iff in Hs as (t0 & Hin0 & Hv0).
    apply Hkept in Hin0 as [Hin0 Hsup0].
    rewrite map_app, in_app_iff, in_map_iff. split.
    + intros [(t & <- & Hin)|Hin].
      * apply Hkept in Hin as [Hin Hsup]. left. by exists t.
      * right. split; [by exists t0 | exact Hin].
    + intros [(t & Hin & Hsup & <-)|[_ Hin]].
      * left. exists t. split; [reflexivity|]. apply Hkept. by split.
      * by right.
  - rewrite in_map_iff. split.
    + intros (t & <- & Hin). apply Hkept in Hin as [Hin Hsup]. left. by exists t.
    + intros [(t & Hin & Hsup & <-)|[(t & Hin & Hsup & Hv) _]].
      * exists t. split; [reflexivity|]. apply Hkept. by split.
      * assert (azure.shouldHardcodeBlobStorage
                  (List.filter (azure.isSupported toLowerCase
                                  (azure.supportedMetricNamespaces this)) parsed) = true)
          as Hyes.
        { apply shouldHardcodeBlobStorage_iff. exists t. split; [|exact Hv].
          apply Hkept. by split. }
        congruence.
Qed.

(** X13. Under the same conditions, every entry offered by
    [getMetricDefinitions] is labelled as the table reads at its lower-cased
    value: with the own display name when there is a non-empty one, with the
    value itself when the own name is empty or when the table has nothing
    under that key, and with the inherited member, which is not a string,
    when the key is one every object inherits, such as "constructor".  So an
    entry with a non-empty value never has the empty string as label, and at
    most four entries are added to the parsed ones. *)
Theorem getMetricDefinitions_texts (this : azure.AzureMonitorDatasource)
    (subscriptionId resourceGroup : string) (json : Json) (parsed : list azure.Entry) :
  let url := azure.resourcePath this +:+ "/" +:+ subscriptionId +:+ "/resourceGroups/"
             +:+ resourceGroup +:+ "/resources?api-version=2018-01-01" in
  backend url = azure.Fulfilled json →
  parseResponseValues json "type" "type" = azure.Fulfilled parsed →
  ∃ out,
    azure.getMetricDefinitions backend parseResponseValues toLowerCase
      resourceTypeDisplayNames this subscriptionId resourceGroup
    = ([url], azure.Fulfilled out)
    ∧ (length out ≤ length parsed + 4)%nat
    ∧ ∀ e, In e out →
        let key := toLowerCase (azure.shown.value e) in
        (∀ name, resourceTypeDisplayNames !! key = Some name →
                 azure.shown.text e
                 = azure.Text (if String.eqb name "" then azure.shown.value e else name))
        ∧ (resourceTypeDisplayNames !! key = None → In key azure.objectPrototype →
           azure.shown.text e = azure.Member key)
        ∧ (resourceTypeDisplayNames !! key = None → ¬ In key azure.objectPrototype →
           azure.shown.text e = azure.Text (azure.shown.value e))
        ∧ (azure.shown.value e ≠ "" → azure.shown.text e ≠ azure.Text "").
Proof.
  intros url Hb Hp.
  rewrite (getMetricDefinitions_then this subscriptionId resourceGroup json parsed Hb Hp).
  eexists. split; [reflexivity|]. split.
  - rewrite length_map. cbv zeta.
    pose proof (filter_length_le
                  (azure.isSupported toLowerCase (azure.supportedMetricNamespaces this))
                  parsed) as Hle.
    destruct (azure.shouldHardcodeBlobStorage _); [rewrite length_app; simpl|]; lia.
  - intros e Hin. apply in_map_iff in Hin as (v & <- & _).
    cbn [azure.shown.value azure.shown.text]. cbv zeta.
    split; [|split; [|split]]; [| | |apply orElse_nonempty].
    + intros name Hname. unfold azure.get. rewrite Hname. simpl.
      by destruct (String.eqb name "").
    + intros Hnone Hin. unfold azure.get. rewrite Hnone.
      by rewrite (proj2 (existsb_eqb_In _ _) Hin).
    + intros Hnone Hout. unfold azure.get. rewrite Hnone.
      destruct (existsb _ _) eqn:Hex; [|reflexivity].
      by apply existsb_eqb_In in Hex.
Qed.

(** X14. [getResourceNames] issues one request.  For a metric definition
    under "Microsoft.Storage/storageAccounts/" it asks the parser for the
    storage accounts themselves and appends "/default" to the text and the
    value of each; for any other metric definition, the bare
    "Microsoft.Storage/storageAccounts" included, it returns what the parser
    gives for that definition. *)
Theorem getResourceNames_default_suffix (this : azure.AzureMonitorDatasource)
    (subscriptionId resourceGroup metricDefinition : string) (json : Json) :
  let url := azure.resourcePath this +:+ "/" +:+ subscriptionId +:+ "/resourceGroups/"
             +:+ resourceGroup +:+ "/resources?api-version=2018-01-01" in
  let names := azure.getResourceNames backend parseResourceNames this
                 subscriptionId resourceGroup metricDefinition in
  backend url = azure.Fulfilled json →
  (∀ service list,
     metricDefinition = "Microsoft.Storage/storageAccounts/" +:+ service →
     parseResourceNames json "Microsoft.Storage/storageAccounts" = azure.Fulfilled list →
     names = ([url],
              azure.Fulfilled
                (map (λ e, {| azure.text := azure.text e +:+ "/default";
                              azure.value := azure.value e +:+ "/default" |}) list)))
  ∧ ((∀ service, metricDefinition ≠ "Microsoft.Storage/storageAccounts/" +:+ service) →
     names = ([url], parseResourceNames json metricDefinition)).
Proof.
  intros url names Hb. subst names. unfold azure.getResourceNames, azure.getResource.
  change (azure.resourcePath this +:+ "/" +:+ subscriptionId +:+ "/resourceGroups/"
          +:+ resourceGroup +:+ "/resources?api-version=" +:+ azure.apiVersion)
    with url.
  unfold azure.then_. rewrite Hb. split.
  - intros service list -> Hlist.
    pose proof (HasPrefix_app "Microsoft.Storage/storageAccounts/" service) as Hpre.
    unfold strings.HasPrefix in Hpre. rewrite Hpre, Hlist. reflexivity.
  - intros Hnot.
    destruct (String.prefix "Microsoft.Storage/storageAccounts/" metricDefinition) eqn:Hpre;
      [|reflexivity].
    destruct (HasPrefix_inv _ _ Hpre) as [service ->]. by destruct (Hnot service).
Qed.

(** X15. When the backend rejects the request, [getMetricDefinitions] and
    [getResourceNames] reject with the same reason after that one request:
    no parser result is used and nothing is added. *)
Theorem getMetricDefinitions_rejected (this : azure.AzureMonitorDatasource)
    (subscriptionId resourceGroup metricDefinition : string) (e : Err) :
  let url := azure.resourcePath this +:+ "/" +:+ subscriptionId +:+ "/resourceGroups/"
             +:+ resourceGroup +:+ "/resources?api-version=2018-01-01" in
  backend url = azure.Rejected e →
  azure.getMetricDefinitions backend parseResponseValues toLowerCase
    resourceTypeDisplayNames this subscriptionId resourceGroup
  = ([url], azure.Rejected e)
  ∧ azure.getResourceNames backend parseResourceNames this
      subscriptionId resourceGroup metricDefinition
    = ([url], azure.Rejected e).
Proof.
  intros url Hb.
  unfold azure.getMetricDefinitions, azure.getResourceNames, azure.getResource.
  change (azure.resourcePath this +:+ "/" +:+ subscriptionId +:+ "/resourceGroups/"
          +:+ resourceGroup +:+ "/resources?api-version=" +:+ azure.apiVersion)
    with url.
  cbv zeta. unfold azure.then_. rewrite Hb. split; reflexivity.
Qed.

End Datasource.

(** ** The datasource properties on sample settings *)

Lemma getSubscriptions_unconfigured_witness :
  azure.getSubscriptions azure_sample.backend (λ json, azure.Fulfilled []) azure_sample.secret
  = ([], azure.Fulfilled []).
Proof.
  apply (getSubscriptions_unconfigured string string azure_sample.backend
           (λ json, azure.Fulfilled []) azure_sample.secret).
  - reflexivity.
  - left. right. reflexivity.
Defined.

Lemma getMetricDefinitions_values_witness :
  ∃ out,
    azure.getMetricDefinitions azure_sample.backend azure_sample.parseResponseValues
      azure_sample.toLowerCase azure_sample.displayNames azure_sample.managed "sub-1" "rg"
    = ([azure_sample.resources], azure.Fulfilled out)
    ∧ In "Microsoft.Storage/storageAccounts/blobServices" (map azure.shown.value out)
    ∧ ¬ In "Microsoft.Sql/servers" (map azure.shown.value out).
Proof.
  destruct (getMetricDefinitions_values string string azure_sample.backend
              azure_sample.parseResponseValues azure_sample.toLowerCase
              azure_sample.displayNames azure_sample.managed "sub-1" "rg" "ok"
              [ {| azure.text := "Microsoft.Storage/storageAccounts";
                   azure.value := "Microsoft.Storage/storageAccounts" |};
                {| azure.text := "Microsoft.Sql/servers";
                   azure.value := "Microsoft.Sql/servers" |} ]
              eq_refl eq_refl) as (out & Hout & Hvalues).
  exists out. split; [exact Hout|]. split.
  - apply Hvalues. right. split; [|simpl; tauto].
    eexists. split; [left; reflexivity|]. split; [|reflexivity].
    exists "Microsoft.Storage/storageAccounts". split; [simpl; tauto | reflexivity].
  - intros Hin. apply Hvalues in Hin as [(t & Hin & (ns & Hns & Hlow) & Hv)|[_ Hin]].
    + simpl in Hns. destruct Hns as [<-|[<-|[]]]; rewrite Hv in Hlow; discriminate Hlow.
    + simpl in Hin. repeat destruct Hin as [Hin|Hin]; try discriminate Hin. exact Hin.
Defined.

Lemma getMetricDefinitions_texts_witness :
  ∃ out,
    azure.getMetricDefinitions azure_sample.backend azure_sample.parseResponseValues
      azure_sample.toLowerCase azure_sample.displayNames azure_sample.managed "sub-1" "rg"
    = ([azure_sample.resources], azure.Fulfilled out)
    ∧ (length out ≤ 6)%nat
    ∧ ∀ e, In e out → azure.shown.value e ≠ "" → azure.shown.text e ≠ azure.Text "".
Proof.
  destruct (getMetricDefinitions_texts string string azure_sample.backend
              azure_sample.parseResponseValues azure_sample.toLowerCase
              azure_sample.displayNames azure_sample.managed "sub-1" "rg" "ok"
              [ {| azure.text := "Microsoft.Storage/storageAccounts";
                   azure.value := "Microsoft.Storage/storageAccounts" |};
                {| azure.text := "Microsoft.Sql/servers";
                   azure.value := "Microsoft.Sql/servers" |} ]
              eq_refl eq_refl) as (out & Hout & Hlen & Hlabels).
  exists out. split; [exact Hout|]. split; [exact Hlen|].
  intros e Hin. apply (Hlabels e Hin).
Defined.

Lemma getResourceNames_default_suffix_witness :
  azure.getResourceNames azure_sample.backend azure_sample.parseResourceNames
    azure_sample.managed "sub-1" "rg" "Microsoft.Storage/storageAccounts/blobServices"
  = ([azure_sample.resources],
     azure.Fulfilled [ {| azure.text := "acct/default"; azure.value := "acct/default" |} ]).
Proof.
  destruct (getResourceNames_default_suffix string string azure_sample.backend
              azure_sample.parseResourceNames azure_sample.managed "sub-1" "rg"
              "Microsoft.Storage/storageAccounts/blobServices" "ok" eq_refl)
    as [Hstorage _].
  apply (Hstorage "blobServices" [ {| azure.text := "acct"; azure.value := "acct" |} ]);
    reflexivity.
Defined.

Lemma getMetricDefinitions_rejected_witness :
  azure.getMetricDefinitions azure_sample.down azure_sample.parseResponseValues
    azure_sample.toLowerCase azure_sample.displayNames azure_sample.managed "sub-1" "rg"
  = ([azure_sample.resources], azure.Rejected "502").
Proof.
  destruct (getMetricDefinitions_rejected string string azure_sample.down
              azure_sample.parseResponseValues azure_sample.parseResourceNames
              azure_sample.toLowerCase azure_sample.displayNames azure_sample.managed
              "sub-1" "rg" "Microsoft.Compute/virtualMachines" "502" eq_refl)
    as [Hdefinitions _].
  exact Hdefinitions.
Defined.

(** An entry whose lower-cased value is "constructor" is labelled with the
    member every object inherits under that name, not with a string. *)
Example getMetricDefinitions_inherited_label :
  azure.getMetricDefinitions azure_sample.backend
    (λ json textField valueField,
       azure.Fulfilled [ {| azure.text := "Constructor"; azure.value := "Constructor" |} ])
    azure_sample.toLowerCase azure_sample.displayNames
    (azure.constructor
       {| azure.tenantId := None; azure.clientId := None; azure.subscriptionId := None |}
       "msi" "azuremonitor" ["constructor"])
    "sub-1" "rg"
  = ([azure_sample.resources],
     azure.Fulfilled
       [ {| azure.shown.value := "Constructor";
            azure.shown.text := azure.Member "constructor" |} ]).
Proof. reflexivity. Qed.

(** * The robots file *)

(** C2. The bypass of the robots file does not work: the code compares the
    path with "robots.txt", and the path of a request for the robots file is
    "/robots.txt".  Such a request is not bypassed; whatever the rest of the
    chain does, a span is started for it, named after the method and that
    path. *)
Theorem RequestTracing_robots_file_traced
    (Extract : context.Context → http.Header → context.Context)
    (Next : macaron.Context → Res unit * macaron.Context)
    (req : http.Request) (w : World) :
  http.Path (http.Url (macaron.Req (c w))) = "/robots.txt" →
  let calls := made w (middleware.RequestTracing Extract Next req w).2 in
  middleware.bypassed (c w) = false
  ∧ trace.started calls = 1%nat
  ∧ ∃ rest,
      calls
      = trace.Start (nextSpan w)
          ("HTTP " +:+ http.Method req +:+ " " +:+ http.Path (http.Url req))
          [trace.LinkFromContext (Extract (http.Ctx req) (http.Headers req))]
        :: rest.
Proof.
  intros Hpath. cbv zeta.
  assert (Hb : middleware.bypassed (c w) = false).
  { unfold middleware.bypassed. rewrite Hpath. reflexivity. }
  destruct (tracer_after Extract Next req w) as (_ & _ & Hstarted & Hmade).
  rewrite Hb in Hstarted, Hmade. destruct Hmade as (s & rest & _ & Hcalls).
  split; [exact Hb|]. split; [exact Hstarted|]. by exists rest.
Qed.

Lemma RequestTracing_robots_file_traced_witness :
  let w := sample.world robotsRequest in
  let calls := made w (middleware.RequestTracing sample.Extract (sample.unnamed 200)
                         robotsRequest w).2 in
  middleware.bypassed (c w) = false
  ∧ trace.started calls = 1%nat
  ∧ ∃ rest, calls
            = trace.Start O "HTTP GET /robots.txt"
                [trace.LinkFromContext
                   (sample.Extract (http.Ctx robotsRequest) (http.Headers robotsRequest))]
              :: rest.
Proof.
  apply (RequestTracing_robots_file_traced sample.Extract (sample.unnamed 200)
           robotsRequest (sample.world robotsRequest)).
  reflexivity.
Defined.
